(** * Worker state detection and fleet aggregation of the wiggum TUI

    A shallow embedding of
    - [wiggum_tui/actions/worker_control.py]  (module [WorkerControl]),
    - [wiggum_tui/widgets/metrics_panel.py]   (modules [MetricsPanel],
      [MetricsView] and [MetricsPanelWidget]),
    - the scanner those two sit next to, [wiggum_tui/data/worker_scanner.py],
      exercised by [tests/test_worker_scanner.py] (module [WorkerScanner]).

    Python integers are [Z], strings are [string], a call that may raise
    returns an [outcome], and the operating system, the file system, the
    log-summary provider and Textual are passed in as functions. *)

From Stdlib Require Import ZArith List String Ascii Bool Lia.
From Stdlib Require Import DecimalString DecimalZ.
From Stdlib Require Import Sorting.Sorted Sorting.Permutation.
Import ListNotations.

Local Open Scope string_scope.
Local Open Scope Z_scope.

(* ================================================================== *)
(** * Python: exceptions, outcomes, strings *)
(* ================================================================== *)

Module Py.

(** The exception classes the sources name, and four that the calls and
    operators they use can raise besides: [ValueError] (e.g. an embedded NUL
    in an argument vector), [UnicodeDecodeError] (from [read_text]),
    [IndexError] (from a container entered where no compose stack is open)
    and [ZeroDivisionError] (from [/]). *)
Inductive exception : Type :=
| TimeoutExpired        (* subprocess.TimeoutExpired *)
| OSError
| FileNotFoundError
| PermissionError
| ProcessLookupError
| ValueError
| UnicodeDecodeError
| IndexError
| ZeroDivisionError.

Definition exception_eqb (a b : exception) : bool :=
  match a, b with
  | TimeoutExpired, TimeoutExpired
  | OSError, OSError
  | FileNotFoundError, FileNotFoundError
  | PermissionError, PermissionError
  | ProcessLookupError, ProcessLookupError
  | ValueError, ValueError
  | UnicodeDecodeError, UnicodeDecodeError
  | IndexError, IndexError
  | ZeroDivisionError, ZeroDivisionError => true
  | _, _ => false
  end.

(** The direct base class inside this fragment of the hierarchy. *)
Definition base (e : exception) : option exception :=
  match e with
  | FileNotFoundError | PermissionError | ProcessLookupError => Some OSError
  | UnicodeDecodeError => Some ValueError
  | TimeoutExpired | OSError | ValueError | IndexError
  | ZeroDivisionError => None
  end.

(** [isinstance e cls]: an exception of class [e] is caught by [except cls]. *)
Definition isinstance (e cls : exception) : bool :=
  exception_eqb e cls ||
  match base e with
  | Some b => exception_eqb b cls
  | None => false
  end.

(** [except (c1, c2, ...)]. *)
Definition caught_by (classes : list exception) (e : exception) : bool :=
  existsb (isinstance e) classes.

(** What a call does: it returns a value or raises. *)
Inductive outcome (A : Type) : Type :=
| Return (a : A)
| Raise (e : exception).

Arguments Return {A} a.
Arguments Raise {A} e.

Definition bind {A B : Type} (m : outcome A) (k : A -> outcome B) : outcome B :=
  match m with
  | Return a => k a
  | Raise e => Raise e
  end.

(** [try: body  except classes: handler]. *)
Definition try_except {A : Type} (body : outcome A)
    (classes : list exception) (handler : outcome A) : outcome A :=
  match body with
  | Return a => Return a
  | Raise e => if caught_by classes e then handler else Raise e
  end.

(** [str(n)] of an int, also what an f-string prints. *)
Definition str_int (n : Z) : string := NilZero.string_of_int (Z.to_int n).

(** [needle in hay] on strings. *)
Fixpoint contains (needle hay : string) : bool :=
  if String.prefix needle hay then true
  else match hay with
       | EmptyString => false
       | String _ hay' => contains needle hay'
       end.

(** [b] occurs in [s]: what [contains] decides. *)
Definition occurs_in (b s : string) : Prop :=
  exists pre post : string, s = pre ++ b ++ post.

(** A function applied to what a call returns. *)
Definition outcome_map {A B : Type} (f : A -> B) (o : outcome A) : outcome B :=
  match o with
  | Return a => Return (f a)
  | Raise e => Raise e
  end.

(** [", ".join(parts)]. *)
Fixpoint join (sep : string) (parts : list string) : string :=
  match parts with
  | [] => ""
  | [p] => p
  | p :: rest => p ++ sep ++ join sep rest
  end.

End Py.

Import Py.

Declare Scope py_scope.
Notation "x <- m ;; k" := (bind m (fun x => k))
  (at level 61, m at next level, right associativity) : py_scope.
Local Open Scope py_scope.

(* ================================================================== *)
(** * actions/worker_control.py *)
(* ================================================================== *)

Module WorkerControl.

(** [subprocess.CompletedProcess], of which only the exit code is read. *)
Record CompletedProcess : Type := { returncode : Z }.

(** [subprocess.run(args, capture_output=True, timeout=t)]: the external
    command, given its argument vector and its timeout in seconds. *)
Definition subprocess_run : Type :=
  list string -> Z -> outcome CompletedProcess.

Definition stop_timeout : Z := 35.
Definition kill_timeout : Z := 10.

Definition stop_worker (run : subprocess_run) (worker_id : string)
  : outcome bool :=
  try_except
    (result <- run ["wiggum"; "stop"; worker_id] stop_timeout ;;
     Return (returncode result =? 0))
    [TimeoutExpired; FileNotFoundError; OSError]
    (Return false).

Definition kill_worker (run : subprocess_run) (worker_id : string)
  : outcome bool :=
  try_except
    (result <- run ["wiggum"; "kill"; worker_id] kill_timeout ;;
     Return (returncode result =? 0))
    [TimeoutExpired; FileNotFoundError; OSError]
    (Return false).

(** The ways the external command fails to deliver an exit code: it timed
    out, or the operating system refused (the command is missing, it may not
    be executed, a pipe broke, ...). *)
Definition transport_failure (e : exception) : Prop :=
  e = TimeoutExpired \/ isinstance e OSError = true.

(** The two [pathlib.Path] operations [verify_worker_process] uses. *)
Record filesystem : Type := {
  path_exists : string -> outcome bool;
  read_text : string -> outcome string
}.

Definition cmdline_path (pid : Z) : string :=
  "/proc/" ++ str_int pid ++ "/cmdline".

Definition verify_worker_process (fs : filesystem) (pid : Z) : outcome bool :=
  try_except
    (ex <- path_exists fs (cmdline_path pid) ;;
     if ex then
       cmdline <- read_text fs (cmdline_path pid) ;;
       Return (contains "bash" cmdline)
     else Return false)
    [OSError; PermissionError]
    (Return false).

(** [os.kill(pid, sig)]. *)
Definition os_kill_t : Type := Z -> Z -> outcome unit.

Definition is_process_running (os_kill : os_kill_t) (pid : Z) : outcome bool :=
  match os_kill pid 0 with
  | Return _ => Return true
  | Raise e =>
      if isinstance e ProcessLookupError then Return false
      else if isinstance e PermissionError then Return true
      else Raise e
  end.

(** ** A process table to run the probes on *)

Record process : Type := {
  proc_cmdline : string;      (* NUL-separated argument vector *)
  proc_signalable : bool      (* may the caller signal it? *)
}.

Definition process_table : Type := list (Z * process).

Fixpoint lookup_pid (t : process_table) (pid : Z) : option process :=
  match t with
  | [] => None
  | (p, pr) :: t' => if p =? pid then Some pr else lookup_pid t' pid
  end.

(** kill(2) with signal 0 on a single process: ESRCH when there is none,
    EPERM when it may not be signalled. *)
Definition table_kill (t : process_table) : os_kill_t :=
  fun pid _ =>
    match lookup_pid t pid with
    | None => Raise ProcessLookupError
    | Some pr => if proc_signalable pr then Return tt else Raise PermissionError
    end.

(** procfs over the same table. *)
Definition table_procfs (t : process_table) : filesystem :=
  {| path_exists := fun p =>
       Return (existsb (fun e => cmdline_path (fst e) =? p)%string t);
     read_text := fun p =>
       match find (fun e => cmdline_path (fst e) =? p)%string t with
       | Some e => Return (proc_cmdline (snd e))
       | None => Raise FileNotFoundError
       end |}.

End WorkerControl.

(* ================================================================== *)
(** * Python: [list.sort(key=..., reverse=True)] *)
(* ================================================================== *)

Module PySort.
Section Sort.
Context {A K : Type}.
Variable lt : K -> K -> bool.   (* [<] on the keys *)
Variable key : A -> K.

(** The sort is stable, also with [reverse=True]; on keys that [<] orders
    like numbers there is one stable descending arrangement, and insertion
    from the right builds it. [x] stood before every element of [l] in the
    input: it goes behind the elements with a strictly larger key and before
    the first one whose key is not larger, so elements with equal keys keep
    their order. *)
Fixpoint insert_desc (x : A) (l : list A) : list A :=
  match l with
  | [] => [x]
  | y :: l' =>
      if lt (key x) (key y) then y :: insert_desc x l'
      else x :: y :: l'
  end.

Definition sort_desc (l : list A) : list A :=
  fold_right insert_desc [] l.

(** Descending: no element has a smaller key than one that follows it. *)
Definition descending (l : list A) : Prop :=
  StronglySorted (fun a b => lt (key a) (key b) = false) l.
End Sort.
End PySort.

(* ================================================================== *)
(** * data/worker_scanner.py and data/models.py *)
(* ================================================================== *)

Module WorkerScanner.

(** Modelled from the spec: the [WorkerStatus] enum of data/models.py, which
    is not under src/ (section 4.2 of the specification; the four members
    are the ones the tests and metrics_panel.py name). *)
Inductive WorkerStatus : Type := RUNNING | COMPLETED | FAILED | STOPPED.

(** Modelled from the spec: [WorkerStatus.value], not under src/ either; the
    strings are the keys of [status_color] in metrics_panel.py. *)
Definition status_value (s : WorkerStatus) : string :=
  match s with
  | RUNNING => "running"
  | COMPLETED => "completed"
  | FAILED => "failed"
  | STOPPED => "stopped"
  end.

Definition WorkerStatus_eqb (a b : WorkerStatus) : bool :=
  match a, b with
  | RUNNING, RUNNING | COMPLETED, COMPLETED
  | FAILED, FAILED | STOPPED, STOPPED => true
  | _, _ => false
  end.

(** Modelled from the spec: the [Worker] dataclass of data/models.py, which
    is not under src/ (section 3 of the specification), with the fields the
    tests construct it from; [pr_url] is the one they leave out. *)
Record Worker : Type := {
  id : string;
  task_id : string;
  timestamp : Z;
  pid : option Z;
  status : WorkerStatus;
  prd_path : string;
  log_path : string;
  workspace_path : string;
  pr_url : option string
}.

(** ** Strings *)

Definition is_upper (c : ascii) : bool :=
  let n := nat_of_ascii c in (65 <=? n)%nat && (n <=? 90)%nat.

Definition is_digit (c : ascii) : bool :=
  let n := nat_of_ascii c in (48 <=? n)%nat && (n <=? 57)%nat.

Definition is_hyphen (c : ascii) : bool := (nat_of_ascii c =? 45)%nat.

Fixpoint all_chars (p : ascii -> bool) (s : string) : bool :=
  match s with
  | EmptyString => true
  | String c s' => p c && all_chars p s'
  end.

(** The longest prefix of [s] made of characters in [p], and what follows it. *)
Fixpoint span (p : ascii -> bool) (s : string) : string * string :=
  match s with
  | EmptyString => (EmptyString, EmptyString)
  | String c s' =>
      if p c then let (a, b) := span p s' in (String c a, b)
      else (EmptyString, s)
  end.

(** A string that does not start with a character of class [p]. *)
Definition stops (p : ascii -> bool) (s : string) : Prop :=
  match s with
  | EmptyString => True
  | String c _ => p c = false
  end.

Fixpoint strip_prefix (pre s : string) : option string :=
  match pre, s with
  | EmptyString, _ => Some s
  | String a pre', String b s' =>
      if Ascii.eqb a b then strip_prefix pre' s' else None
  | String _ _, EmptyString => None
  end.

Definition len (s : string) : Z := Z.of_nat (String.length s).

(** [int(s)] on a string of decimal digits. *)
Fixpoint int_digits (acc : Z) (s : string) : Z :=
  match s with
  | EmptyString => acc
  | String c s' =>
      int_digits (10 * acc + (Z.of_nat (nat_of_ascii c) - 48)) s'
  end.

Definition int_of_str (s : string) : Z := int_digits 0 s.

(** The lines of a text, split at line feeds. *)
Fixpoint lines_from (cur : string) (s : string) : list string :=
  match s with
  | EmptyString => [cur]
  | String c s' =>
      if (nat_of_ascii c =? 10)%nat then cur :: lines_from EmptyString s'
      else lines_from (cur ++ String c EmptyString)%string s'
  end.

Definition lines (s : string) : list string := lines_from EmptyString s.

(** ** The name pattern *)

(** Modelled from the spec: [WORKER_PATTERN] of data/worker_scanner.py, which
    is not under src/. The spec gives the shape
    [worker-<TASK_ID>-<TIMESTAMP>], anchored at both ends, with [TIMESTAMP]
    of 1 to 10 decimal digits and [TASK_ID] made of upper-case letters,
    digits and hyphens, 4 characters at least. Inside [TASK_ID] the shape is
    the one [TestWorkerPattern] in tests/test_worker_scanner.py asserts:
    a letter prefix, a hyphen and a number, where a one-letter prefix is
    [# Prefix too short], a ten-letter prefix matches, a four-digit number
    matches and a five-digit number is [# Number too long]. The tests fix
    the number at 1 to 4 digits; of the prefix they fix only that one letter
    is too short, that three letters are enough and that ten are not too
    many. The minimum of 2 and the maximum of 10 letters written here are
    one pattern among those the tests admit; what is stated about
    discovery below is stated for every pattern they admit
    ([scan_workers_with]). The result is [match.groups()]: the task id and
    the timestamp as strings. *)
Definition WORKER_PATTERN (name : string) : option (string * string) :=
  match strip_prefix "worker-" name with
  | None => None
  | Some r0 =>
      let (prefix, r1) := span is_upper r0 in
      match r1 with
      | String c1 r2 =>
          let (number, r3) := span is_digit r2 in
          match r3 with
          | String c2 r4 =>
              let (ts, r5) := span is_digit r4 in
              if is_hyphen c1 && is_hyphen c2
                 && (2 <=? len prefix) && (len prefix <=? 10)
                 && (1 <=? len number) && (len number <=? 4)
                 && (1 <=? len ts) && (len ts <=? 10)
                 && (len r5 =? 0)
              then Some ((prefix ++ "-" ++ number)%string, ts)
              else None
          | EmptyString => None
          end
      | EmptyString => None
      end
  end.

(** [s] cut at its last hyphen. *)
Fixpoint split_last_hyphen (s : string) : option (string * string) :=
  match s with
  | EmptyString => None
  | String c s' =>
      match split_last_hyphen s' with
      | Some (a, b) => Some (String c a, b)
      | None => if is_hyphen c then Some (EmptyString, s') else None
      end
  end.

Definition task_id_char (c : ascii) : bool :=
  is_upper c || is_digit c || is_hyphen c.

(** The pattern as the specification words it, for comparison: after
    [worker-], a task id of 4 to 10 characters among upper-case letters,
    digits and hyphens, a hyphen, and a timestamp of 1 to 10 digits. The
    timestamp holds no hyphen, so it starts behind the last hyphen of the
    name. *)
Definition worded_pattern (name : string) : option (string * string) :=
  match strip_prefix "worker-" name with
  | None => None
  | Some r =>
      match split_last_hyphen r with
      | None => None
      | Some (tid, ts) =>
          if all_chars task_id_char tid && (4 <=? len tid) && (len tid <=? 10)
             && all_chars is_digit ts && (1 <=? len ts) && (len ts <=? 10)
          then Some (tid, ts)
          else None
      end
  end.

(** What [WORKER_PATTERN] accepts, spelled out: the name is
    [worker-<PREFIX>-<NUMBER>-<TIMESTAMP>], the task id is
    [<PREFIX>-<NUMBER>]. *)
Definition worker_name (name task ts : string) : Prop :=
  exists prefix number : string,
    name = ("worker-" ++ prefix ++ "-" ++ number ++ "-" ++ ts)%string
    /\ task = (prefix ++ "-" ++ number)%string
    /\ all_chars is_upper prefix = true /\ 2 <= len prefix <= 10
    /\ all_chars is_digit number = true /\ 1 <= len number <= 4
    /\ all_chars is_digit ts = true /\ 1 <= len ts <= 10.


(** The tables of [TestWorkerPattern]. *)
Definition valid_names : list string :=
  [ "worker-TASK-001-1700000000";
    "worker-DEV-42-1234567890";
    "worker-TEST-1-9999999999";
    "worker-ABCDEFGHIJ-9999-1111111111" ].

Definition invalid_names : list string :=
  [ "worker-TASK-001";
    "TASK-001-1700000000";
    "worker-A-1-1700000000";
    "worker-TASK-12345-1700000000" ].

Definition is_some {A : Type} (o : option A) : bool :=
  match o with Some _ => true | None => false end.

(** [test_matches_valid_worker_names], [test_extracts_task_id_and_timestamp]
    and [test_no_match_invalid_names], run on a pattern. *)
Definition test_worker_pattern (pat : string -> option (string * string))
  : bool :=
  forallb (fun n => is_some (pat n)) valid_names
  && match pat "worker-TASK-001-1700000000" with
     | Some (t, ts) => ((t =? "TASK-001") && (ts =? "1700000000"))%string
     | None => false
     end
  && forallb (fun n => negb (is_some (pat n))) invalid_names.

(** ** The completion marker *)

Definition is_failed_line (l : string) : bool := String.prefix "- [*]" l.
Definition is_unmarked_line (l : string) : bool := String.prefix "- [ ]" l.
Definition is_done_line (l : string) : bool := String.prefix "- [x]" l.

(** Modelled from the spec: [get_prd_status] of data/worker_scanner.py, which
    is not under src/ (section 4.3 of the specification). The argument is the
    text of the checklist file, [None] when the file does not exist; the
    verdict is one of the strings the tests compare with. *)
Definition get_prd_status (prd : option string) : string :=
  match prd with
  | None => "incomplete"
  | Some content =>
      if existsb is_failed_line (lines content) then "failed"
      else if existsb is_unmarked_line (lines content) then "incomplete"
      else "complete"
  end.

Definition failed_lines (content : string) : list string :=
  filter is_failed_line (lines content).

Definition unmarked_lines (content : string) : list string :=
  filter is_unmarked_line (lines content).

(** ** Worker directories *)

(** Modelled from the spec: the worker directory layout of section 6 of the
    specification, with the file names the tests write. What the scanner
    reads in one worker directory is the PID recorded in the liveness marker
    ([agent.pid]), the checklist ([prd.md]) and the result pointer
    ([pr_url.txt]); each is [None] when the file is not there. *)
Record WorkerDir : Type := {
  agent_pid : option Z;
  prd_md : option string;
  pr_url_txt : option string
}.

Inductive Entry : Type :=
| File (name : string)
| Directory (name : string) (d : WorkerDir).

(** The root: its path and the listing of its [workers] child, [None] when
    there is no such directory. *)
Record RalphDir : Type := {
  ralph_path : string;
  workers_dir : option (list Entry)
}.

(** Modelled from the spec: [is_process_running] and [is_worker_process] of
    data/worker_scanner.py, not under src/; they are the two probes of
    section 4.2 of the specification, which the tests patch with constant
    answers. *)
Record Probes : Type := {
  is_process_running : Z -> bool;
  is_worker_process : Z -> bool
}.

(** Modelled from the spec: the status resolution of data/worker_scanner.py,
    which is not under src/ (section 4.2 of the specification, first match
    wins). *)
Definition resolve_status (probes : Probes) (marker : option Z)
    (verdict : string) : WorkerStatus :=
  let by_verdict :=
    if (verdict =? "failed")%string then FAILED
    else if (verdict =? "complete")%string then COMPLETED
    else STOPPED in
  match marker with
  | Some p =>
      if is_process_running probes p && is_worker_process probes p
      then RUNNING
      else by_verdict
  | None => by_verdict
  end.

Definition path_join (a b : string) : string := (a ++ "/" ++ b)%string.

(** Modelled from the spec: how data/worker_scanner.py, which is not under
    src/, builds the [Worker] of one directory whose name matched
    (sections 3 and 4.1 of the specification). The children [prd.md] and
    [worker.log] are the ones the tests write; the name of the workspace
    child is fixed by neither, and nothing below reads the three paths. *)
Definition resolve_worker (probes : Probes) (root : string) (name : string)
    (task ts : string) (d : WorkerDir) : Worker :=
  let dir := path_join (path_join root "workers") name in
  {| id := name;
     task_id := task;
     timestamp := int_of_str ts;
     pid := agent_pid d;
     status := resolve_status probes (agent_pid d) (get_prd_status (prd_md d));
     prd_path := path_join dir "prd.md";
     log_path := path_join dir "worker.log";
     workspace_path := path_join dir "workspace";
     pr_url := pr_url_txt d |}.

Definition scan_entry (probes : Probes) (root : string) (e : Entry)
  : option Worker :=
  match e with
  | File _ => None
  | Directory name d =>
      match WORKER_PATTERN name with
      | Some (task, ts) => Some (resolve_worker probes root name task ts d)
      | None => None
      end
  end.

Fixpoint filter_map {A B : Type} (f : A -> option B) (l : list A) : list B :=
  match l with
  | [] => []
  | a :: l' =>
      match f a with
      | Some b => b :: filter_map f l'
      | None => filter_map f l'
      end
  end.

(** Modelled from the spec: [scan_workers] of data/worker_scanner.py, which
    is not under src/ (section 4.1 of the specification). *)
Definition scan_workers (probes : Probes) (root : RalphDir) : list Worker :=
  match workers_dir root with
  | None => []
  | Some entries =>
      PySort.sort_desc Z.ltb timestamp
        (filter_map (scan_entry probes (ralph_path root)) entries)
  end.

(** ** The scanner over any name pattern *)

(** Modelled from the spec: [scan_workers] of data/worker_scanner.py, which
    is not under src/ (section 4.1 of the specification), with the name
    pattern as a parameter: what it does for one entry of the listing, the
    scan, and the entries it returns a worker for. [scan_workers] above is
    [scan_workers_with WORKER_PATTERN]. *)
Definition scan_entry_with (pattern : string -> option (string * string))
    (probes : Probes) (root : string) (e : Entry) : option Worker :=
  match e with
  | File _ => None
  | Directory name d =>
      match pattern name with
      | Some (task, ts) => Some (resolve_worker probes root name task ts d)
      | None => None
      end
  end.

Definition scan_workers_with (pattern : string -> option (string * string))
    (probes : Probes) (root : RalphDir) : list Worker :=
  match workers_dir root with
  | None => []
  | Some entries =>
      PySort.sort_desc Z.ltb timestamp
        (filter_map (scan_entry_with pattern probes (ralph_path root)) entries)
  end.



(** The subdirectories of a listing that carry a worker name. *)
Definition is_worker_dir (e : Entry) : bool :=
  match e with
  | File _ => false
  | Directory name _ => is_some (WORKER_PATTERN name)
  end.

(** The verdict-based status, behind the liveness test. *)
Definition status_of_verdict (verdict : string) (s : WorkerStatus) : Prop :=
  (verdict = "failed" -> s = FAILED)
  /\ (verdict = "complete" -> s = COMPLETED)
  /\ (verdict <> "failed" -> verdict <> "complete" -> s = STOPPED).

(** ** The fixtures of [TestGetPrdStatus] and [TestScanWorkers] *)

Definition LF : string := String (ascii_of_nat 10) EmptyString.

Definition mock (running worker : bool) : Probes :=
  {| is_process_running := fun _ => running;
     is_worker_process := fun _ => worker |}.

Definition tmp_ralph (entries : list Entry) : RalphDir :=
  {| ralph_path := "/tmp/.ralph"; workers_dir := Some entries |}.

(** [test_detects_running_worker], [test_scans_worker_directory],
    [test_detects_failed_worker] and [test_reads_pr_url]. *)
Definition running_dir : WorkerDir :=
  {| agent_pid := Some 12345; prd_md := Some "- [ ] Not done";
     pr_url_txt := None |}.

Definition done_dir : WorkerDir :=
  {| agent_pid := None; prd_md := Some "- [x] Done"; pr_url_txt := None |}.

Definition failed_dir : WorkerDir :=
  {| agent_pid := None; prd_md := Some "- [*] Failed task";
     pr_url_txt := None |}.

Definition pr_dir : WorkerDir :=
  {| agent_pid := None; prd_md := Some "- [x] Done";
     pr_url_txt := Some "https://github.com/example/pr/123" |}.

(** [test_failed_takes_precedence]. *)
Definition mixed_prd : string :=
  ("# PRD" ++ LF ++ "- [ ] Task 1" ++ LF ++ "- [*] Task 2" ++ LF)%string.

(** [test_sorts_by_timestamp_descending]. *)
Definition three_workers : list Entry :=
  [ Directory "worker-TASK-001-1700000001" done_dir;
    Directory "worker-TASK-002-1700000002" done_dir;
    Directory "worker-TASK-003-1700000003" done_dir ].

(** [test_ignores_non_worker_directories]. *)
Definition no_workers : list Entry :=
  [ File "somefile.txt";
    Directory "random-dir" {| agent_pid := None; prd_md := None;
                              pr_url_txt := None |};
    Directory "worker-invalid" {| agent_pid := None; prd_md := None;
                                  pr_url_txt := None |} ].

End WorkerScanner.

(* ================================================================== *)
(** * widgets/metrics_panel.py *)
(* ================================================================== *)

Module MetricsPanel.

Import WorkerScanner.

(** Python's [float], as far as this module uses it: the literal [0.0], [+],
    [<] and [repr]. The development is parametric in it. *)
Class PyFloat (F : Type) : Type := {
  fzero : F;
  fadd : F -> F -> F;
  flt : F -> F -> bool;
  frepr : F -> string
}.

Section Metrics.
Context {F : Type} `{PyFloat F}.

(** ** What the log-summary provider hands over *)

(** Modelled from the spec: the [usage] of a result entry of
    data/conversation_parser.py, which is not under src/ (section 6 of the
    specification), with the four attributes lines 70-73 read. *)
Record Usage : Type := {
  input : Z;
  output : Z;
  cache_creation : Z;
  cache_read : Z
}.

Record Result : Type := { usage : Usage }.

(** Modelled from the spec: the dict [get_conversation_summary] returns
    (data/conversation_parser.py, not under src/; section 6 of the
    specification), with the five keys lines 62-66 read. *)
Record Summary : Type := {
  turns : Z;
  tool_calls : Z;
  cost_usd : F;
  duration_ms : Z;
  tokens : Z
}.

(** The provider, a parameter of the aggregator: its conversation objects
    with their [.results], and its two functions, each a Python call that
    may raise. *)
Record LogProvider : Type := {
  conversation : Type;
  results : conversation -> list Result;
  parse_iteration_logs : string -> outcome conversation;
  get_conversation_summary : conversation -> outcome Summary
}.

(** ** The snapshot *)

(** One dict of [worker_summaries]. *)
Record SummaryRow : Type := {
  row_worker_id : string;
  row_task_id : string;
  row_status : string;
  row_turns : Z;
  row_tool_calls : Z;
  row_cost_usd : F;
  row_duration_ms : Z;
  row_tokens : Z
}.

Record AggregateMetrics : Type := {
  total_workers : Z;
  running_workers : Z;
  completed_workers : Z;
  failed_workers : Z;
  total_turns : Z;
  total_tool_calls : Z;
  total_cost_usd : F;
  total_duration_ms : Z;
  total_tokens : Z;
  input_tokens : Z;
  output_tokens : Z;
  cache_creation_tokens : Z;
  cache_read_tokens : Z;
  worker_summaries : list SummaryRow
}.

(** [AggregateMetrics()]. *)
Definition empty_metrics : AggregateMetrics :=
  {| total_workers := 0; running_workers := 0; completed_workers := 0;
     failed_workers := 0; total_turns := 0; total_tool_calls := 0;
     total_cost_usd := fzero; total_duration_ms := 0; total_tokens := 0;
     input_tokens := 0; output_tokens := 0; cache_creation_tokens := 0;
     cache_read_tokens := 0; worker_summaries := [] |}.

Definition set_total_workers (n : Z) (m : AggregateMetrics) :=
  {| total_workers := n; running_workers := running_workers m;
     completed_workers := completed_workers m;
     failed_workers := failed_workers m; total_turns := total_turns m;
     total_tool_calls := total_tool_calls m;
     total_cost_usd := total_cost_usd m;
     total_duration_ms := total_duration_ms m;
     total_tokens := total_tokens m; input_tokens := input_tokens m;
     output_tokens := output_tokens m;
     cache_creation_tokens := cache_creation_tokens m;
     cache_read_tokens := cache_read_tokens m;
     worker_summaries := worker_summaries m |}.

Definition set_worker_summaries (rows : list SummaryRow)
    (m : AggregateMetrics) :=
  {| total_workers := total_workers m; running_workers := running_workers m;
     completed_workers := completed_workers m;
     failed_workers := failed_workers m; total_turns := total_turns m;
     total_tool_calls := total_tool_calls m;
     total_cost_usd := total_cost_usd m;
     total_duration_ms := total_duration_ms m;
     total_tokens := total_tokens m; input_tokens := input_tokens m;
     output_tokens := output_tokens m;
     cache_creation_tokens := cache_creation_tokens m;
     cache_read_tokens := cache_read_tokens m;
     worker_summaries := rows |}.

(** Lines 50-55: the [if/elif/elif] on the status. *)
Definition count_status (s : WorkerStatus) (m : AggregateMetrics) :=
  {| total_workers := total_workers m;
     running_workers :=
       if WorkerStatus_eqb s RUNNING then running_workers m + 1
       else running_workers m;
     completed_workers :=
       if WorkerStatus_eqb s RUNNING then completed_workers m
       else if WorkerStatus_eqb s COMPLETED then completed_workers m + 1
       else completed_workers m;
     failed_workers :=
       if WorkerStatus_eqb s RUNNING then failed_workers m
       else if WorkerStatus_eqb s COMPLETED then failed_workers m
       else if WorkerStatus_eqb s FAILED then failed_workers m + 1
       else failed_workers m;
     total_turns := total_turns m;
     total_tool_calls := total_tool_calls m;
     total_cost_usd := total_cost_usd m;
     total_duration_ms := total_duration_ms m;
     total_tokens := total_tokens m; input_tokens := input_tokens m;
     output_tokens := output_tokens m;
     cache_creation_tokens := cache_creation_tokens m;
     cache_read_tokens := cache_read_tokens m;
     worker_summaries := worker_summaries m |}.

(** Lines 62-66. *)
Definition add_summary (s : Summary) (m : AggregateMetrics) :=
  {| total_workers := total_workers m; running_workers := running_workers m;
     completed_workers := completed_workers m;
     failed_workers := failed_workers m;
     total_turns := total_turns m + turns s;
     total_tool_calls := total_tool_calls m + tool_calls s;
     total_cost_usd := fadd (total_cost_usd m) (cost_usd s);
     total_duration_ms := total_duration_ms m + duration_ms s;
     total_tokens := total_tokens m + tokens s;
     input_tokens := input_tokens m; output_tokens := output_tokens m;
     cache_creation_tokens := cache_creation_tokens m;
     cache_read_tokens := cache_read_tokens m;
     worker_summaries := worker_summaries m |}.

(** Lines 70-73, the body of the loop over [conversation.results]. *)
Definition add_usage (m : AggregateMetrics) (r : Result) :=
  {| total_workers := total_workers m; running_workers := running_workers m;
     completed_workers := completed_workers m;
     failed_workers := failed_workers m; total_turns := total_turns m;
     total_tool_calls := total_tool_calls m;
     total_cost_usd := total_cost_usd m;
     total_duration_ms := total_duration_ms m;
     total_tokens := total_tokens m;
     input_tokens := input_tokens m + input (usage r);
     output_tokens := output_tokens m + output (usage r);
     cache_creation_tokens :=
       cache_creation_tokens m + cache_creation (usage r);
     cache_read_tokens := cache_read_tokens m + cache_read (usage r);
     worker_summaries := worker_summaries m |}.

(** Lines 77-86, the dict that is appended. *)
Definition summary_row (w : Worker) (s : Summary) : SummaryRow :=
  {| row_worker_id := id w;
     row_task_id := task_id w;
     row_status := status_value (status w);
     row_turns := turns s;
     row_tool_calls := tool_calls s;
     row_cost_usd := cost_usd s;
     row_duration_ms := duration_ms s;
     row_tokens := tokens s |}.

(** Line 76: [summary["turns"] > 0 or summary["cost_usd"] > 0]. *)
Definition has_activity (s : Summary) : bool :=
  (0 <? turns s) || flt fzero (cost_usd s).

Definition store_summary (w : Worker) (s : Summary) (m : AggregateMetrics) :=
  if has_activity s
  then set_worker_summaries (worker_summaries m ++ [summary_row w s]) m
  else m.

Section Aggregate.
Variable scan_workers : string -> list Worker.
Variable provider : LogProvider.

(** One turn of the loop of lines 49-86. Nothing here catches. *)
Definition process_worker (ralph_dir : string) (m : AggregateMetrics)
    (worker : Worker) : outcome AggregateMetrics :=
  let m := count_status (status worker) m in
  let worker_dir := path_join (path_join ralph_dir "workers") (id worker) in
  conversation <- parse_iteration_logs provider worker_dir ;;
  summary <- get_conversation_summary provider conversation ;;
  let m := add_summary summary m in
  let m := fold_left add_usage (results provider conversation) m in
  Return (store_summary worker summary m).

Fixpoint for_workers (ralph_dir : string) (workers : list Worker)
    (m : AggregateMetrics) : outcome AggregateMetrics :=
  match workers with
  | [] => Return m
  | worker :: rest =>
      m' <- process_worker ralph_dir m worker ;;
      for_workers ralph_dir rest m'
  end.

Definition aggregate_worker_metrics (ralph_dir : string)
  : outcome AggregateMetrics :=
  let metrics := empty_metrics in
  let workers := scan_workers ralph_dir in
  let metrics := set_total_workers (Z.of_nat (List.length workers)) metrics in
  metrics <- for_workers ralph_dir workers metrics ;;
  Return (set_worker_summaries
            (PySort.sort_desc flt row_cost_usd (worker_summaries metrics))
            metrics).

(** What the provider delivers for one worker: the [.results] of its
    conversation and its summary. *)
Definition worker_log (ralph_dir : string) (worker : Worker)
  : outcome (list Result * Summary) :=
  let worker_dir := path_join (path_join ralph_dir "workers") (id worker) in
  conversation <- parse_iteration_logs provider worker_dir ;;
  summary <- get_conversation_summary provider conversation ;;
  Return (results provider conversation, summary).

(** The rows of the workers with activity, in the order of the scan. *)
Definition active_rows (ralph_dir : string) (workers : list Worker)
  : list SummaryRow :=
  flat_map
    (fun w =>
       match worker_log ralph_dir w with
       | Return (_, s) => if has_activity s then [summary_row w s] else []
       | Raise _ => []
       end)
    workers.
End Aggregate.

(** A summary with nothing in it. *)
Definition empty_summary : Summary :=
  {| turns := 0; tool_calls := 0; cost_usd := fzero; duration_ms := 0;
     tokens := 0 |}.

(** The running totals of a snapshot and its rows: everything but the
    worker counts. *)
Definition running_totals (m : AggregateMetrics) :=
  (total_turns m, total_tool_calls m, total_cost_usd m, total_duration_ms m,
   total_tokens m,
   (input_tokens m, output_tokens m, cache_creation_tokens m,
    cache_read_tokens m),
   worker_summaries m).

(** ** The fingerprint *)

(** [str(data)] of the six-tuple of [_compute_data_hash]. *)
Definition _compute_data_hash (metrics : AggregateMetrics) : string :=
  let data :=
    [ str_int (total_workers metrics);
      str_int (completed_workers metrics);
      str_int (failed_workers metrics);
      frepr (total_cost_usd metrics);
      str_int (total_turns metrics);
      str_int (total_tool_calls metrics) ] in
  ("(" ++ join ", " data ++ ")")%string.

End Metrics.

Arguments Summary F : clear implicits.
Arguments LogProvider F : clear implicits.
Arguments SummaryRow F : clear implicits.
Arguments AggregateMetrics F : clear implicits.

End MetricsPanel.

(* ================================================================== *)
(** * Fixtures *)
(* ================================================================== *)

Module Fixtures.

Import WorkerControl WorkerScanner MetricsPanel.

(** The floats that are whole numbers: below 2^53 in magnitude they are
    exact, [+] and [<] on them are those of the integers, and below 10^16
    they print as the integer followed by [.0]. *)
#[export] Instance whole_float : PyFloat Z :=
  {| fzero := 0; fadd := Z.add; flt := Z.ltb;
     frepr := fun n => (str_int n ++ ".0")%string |}.

Definition worker_of (name task : string) (ts : Z) (st : WorkerStatus)
  : Worker :=
  {| id := name; task_id := task; timestamp := ts; pid := None; status := st;
     prd_path := ""; log_path := ""; workspace_path := ""; pr_url := None |}.

(** A fleet of three. *)
Definition fleet : list Worker :=
  [ worker_of "worker-TASK-003-1700000003" "TASK-003" 1700000003 COMPLETED;
    worker_of "worker-TASK-002-1700000002" "TASK-002" 1700000002 STOPPED;
    worker_of "worker-TASK-001-1700000001" "TASK-001" 1700000001 FAILED ].

Definition one_result (i o : Z) : Result :=
  {| usage := {| input := i; output := o; cache_creation := 0;
                 cache_read := 0 |} |}.

(** A provider whose conversations are the pair it will report: TASK-003 cost
    2 dollars in 5 turns, TASK-001 cost 7 dollars in 9 turns, and every
    other directory has no log. *)
Definition logs : LogProvider Z :=
  {| conversation := list Result * Summary Z;
     results := fst;
     parse_iteration_logs := fun dir =>
       if (dir =? "/tmp/.ralph/workers/worker-TASK-003-1700000003")%string
       then Return ([one_result 100 20],
                    {| turns := 5; tool_calls := 11; cost_usd := 2;
                       duration_ms := 4000; tokens := 120 |})
       else if (dir =? "/tmp/.ralph/workers/worker-TASK-001-1700000001")%string
       then Return ([one_result 300 40; one_result 10 1],
                    {| turns := 9; tool_calls := 4; cost_usd := 7;
                       duration_ms := 9000; tokens := 351 |})
       else Return ([], empty_summary);
     get_conversation_summary := fun c => Return (snd c) |}.

(** The snapshot of that fleet. *)
Definition fleet_metrics : AggregateMetrics Z :=
  Eval vm_compute in
    match aggregate_worker_metrics (fun _ => fleet) logs "/tmp/.ralph" with
    | Return m => m
    | Raise _ => empty_metrics
    end.

(** The same provider when the log directory of TASK-002 cannot be read. *)
Definition logs_unreadable : LogProvider Z :=
  {| conversation := list Result * Summary Z;
     results := fst;
     parse_iteration_logs := fun dir =>
       if (dir =? "/tmp/.ralph/workers/worker-TASK-002-1700000002")%string
       then Raise PermissionError
       else parse_iteration_logs logs dir;
     get_conversation_summary := fun c => Return (snd c) |}.

(** An orchestrator command that hangs on [stop] and succeeds on [kill]. *)
Definition hanging_wiggum : subprocess_run :=
  fun args _ =>
    match args with
    | [_; "stop"; _] => Raise TimeoutExpired
    | _ => Return {| returncode := 0 |}
    end.

Definition NUL : string := String (ascii_of_nat 0) EmptyString.

(** [subprocess.run] as it starts a command: an argument vector with a NUL
    byte in it is refused with [ValueError] (embedded null byte) before
    anything is run; any other command is run and exits with 0. *)
Definition nul_refusing_run : subprocess_run :=
  fun args _ =>
    if existsb (contains NUL) args then Raise ValueError
    else Return {| returncode := 0 |}.

(** Three processes: a worker, an editor of another user that happens to
    edit a bash script, and a login shell. *)
Definition some_processes : process_table :=
  [ (4242, {| proc_cmdline := "bash" ++ NUL ++ "lib/worker.sh" ++ NUL;
              proc_signalable := true |});
    (17, {| proc_cmdline := "vim" ++ NUL ++ "notes-on-bash.txt" ++ NUL;
            proc_signalable := false |});
    (900, {| proc_cmdline := "-zsh" ++ NUL; proc_signalable := true |}) ].

(** Floats with the two things whole numbers lack, the negative zero and
    NaN. [+] and [<] are those of IEEE 754 on them: NaN absorbs every sum
    and loses every comparison, [-0.0 + -0.0] is [-0.0], and any other sum
    with a zero is the other summand ([+0.0] when that one is a zero too).
    [repr] is Python's. *)
Inductive signed_float : Type :=
| nan
| neg_zero
| whole (z : Z).      (* [whole 0] is [+0.0] *)

Definition signed_add (a b : signed_float) : signed_float :=
  match a, b with
  | nan, _ | _, nan => nan
  | neg_zero, neg_zero => neg_zero
  | neg_zero, whole z | whole z, neg_zero => whole z
  | whole x, whole y => whole (x + y)
  end.

Definition signed_lt (a b : signed_float) : bool :=
  match a, b with
  | nan, _ | _, nan => false
  | neg_zero, neg_zero => false
  | neg_zero, whole z => 0 <? z
  | whole z, neg_zero => z <? 0
  | whole x, whole y => x <? y
  end.

Definition signed_repr (x : signed_float) : string :=
  match x with
  | nan => "nan"
  | neg_zero => "-0.0"
  | whole z => (str_int z ++ ".0")%string
  end.

#[export] Instance signed_floats : PyFloat signed_float :=
  {| fzero := whole 0; fadd := signed_add; flt := signed_lt;
     frepr := signed_repr |}.

(** A summary of so many turns and such a cost, and nothing else. *)
Definition spent {F : Type} (n_turns : Z) (cost : F) : Summary F :=
  {| turns := n_turns; tool_calls := 0; cost_usd := cost; duration_ms := 0;
     tokens := 0 |}.

(** A provider that reports the summaries of a table, by worker directory
    under [/tmp/.ralph/workers], without result entries, and an empty log
    for every other directory. *)
Definition summaries_of {F : Type} `{PyFloat F}
    (table : list (string * Summary F)) : LogProvider F :=
  {| conversation := Summary F;
     results := fun _ => [];
     parse_iteration_logs := fun dir =>
       Return
         match find (fun row =>
                       (dir =? "/tmp/.ralph/workers/" ++ fst row)%string)
                 table with
         | Some row => snd row
         | None => empty_summary
         end;
     get_conversation_summary := fun c => Return c |}.

(** TASK-002 was refunded: no turn, and a cost of minus 5 dollars. *)
Definition logs_refund : LogProvider Z :=
  summaries_of
    [ ("worker-TASK-003-1700000003", spent 5 2);
      ("worker-TASK-002-1700000002", spent 0 (-5));
      ("worker-TASK-001-1700000001", spent 9 7) ].

(** The cost of TASK-002 is reported as NaN. *)
Definition logs_nan : LogProvider signed_float :=
  summaries_of
    [ ("worker-TASK-003-1700000003", spent 1 (whole 1));
      ("worker-TASK-002-1700000002", spent 1 nan);
      ("worker-TASK-001-1700000001", spent 1 (whole 2)) ].

(** TASK-003 and TASK-001 cost the same, TASK-002 more. *)
Definition logs_tied : LogProvider Z :=
  summaries_of
    [ ("worker-TASK-003-1700000003", spent 1 7);
      ("worker-TASK-002-1700000002", spent 1 9);
      ("worker-TASK-001-1700000001", spent 1 7) ].

Definition tied_metrics : AggregateMetrics Z :=
  Eval vm_compute in
    match aggregate_worker_metrics (fun _ => fleet) logs_tied "/tmp/.ralph" with
    | Return m => m
    | Raise _ => empty_metrics
    end.

(** TASK-003 reports a cost of [-0.0], TASK-002 has no log, TASK-001 cost 7
    dollars. *)
Definition logs_signed : LogProvider signed_float :=
  summaries_of
    [ ("worker-TASK-003-1700000003", spent 1 neg_zero);
      ("worker-TASK-001-1700000001", spent 2 (whole 7)) ].

End Fixtures.

(* ================================================================== *)
(** * widgets/metrics_panel.py: what the panel shows *)
(* ================================================================== *)

Module MetricsView.

Import WorkerScanner MetricsPanel.

Local Open Scope list_scope.

(** ** Python formatting *)

(** The float operations of the display code, besides those of [PyFloat]:
    [a / b] on two ints and on a float and an int (for a divisor that is
    not zero), [x * n], and the format specs [.1f] and [.2f]. *)
Class PyFloatDisplay (F : Type) : Type := {
  int_truediv : Z -> Z -> F;
  float_truediv : F -> Z -> F;
  float_mul : F -> Z -> F;
  format_1f : F -> string;
  format_2f : F -> string
}.

(** [n] spaces. *)
Fixpoint spaces (n : nat) : string :=
  match n with
  | O => EmptyString
  | S n' => String " " (spaces n')
  end.

(** [f"{s:w}"] on a string: padded on the right, never cut. *)
Definition ljust (w : nat) (s : string) : string :=
  (s ++ spaces (w - String.length s))%string.

(** [f"{n:w}"] on an int: padded on the left, never cut. *)
Definition rjust (w : nat) (s : string) : string :=
  (spaces (w - String.length s) ++ s)%string.

(** [s[:n]]. *)
Definition take (n : nat) (s : string) : string := String.substring 0 n s.

(** ** The module's formatters *)

Definition format_duration (ms : Z) : string :=
  let seconds := ms / 1000 in
  if 3600 <=? seconds then
    let hours := seconds / 3600 in
    let minutes := (seconds mod 3600) / 60 in
    (str_int hours ++ "h " ++ str_int minutes ++ "m")%string
  else if 60 <=? seconds then
    let minutes := seconds / 60 in
    let secs := seconds mod 60 in
    (str_int minutes ++ "m " ++ str_int secs ++ "s")%string
  else (str_int seconds ++ "s")%string.

(** One widget out of [compose]: a [Static] with its text and classes, or a
    [MetricCard] with its three strings. *)
Inductive Widget : Type :=
| Static (text classes : string)
| MetricCard (title value secondary : string).

(** [MetricCard.render]. *)
Definition render (title value secondary : string) : string :=
  let lines :=
    [ ("[#7f849c]" ++ title ++ "[/]")%string;
      ("[bold #a6e3a1]" ++ value ++ "[/]")%string ] in
  let lines :=
    if (secondary =? "")%string then lines
    else lines ++ [("[#a6adc8]" ++ secondary ++ "[/]")%string] in
  join LF lines.

(** The dict of line 315 with its [.get(..., "#7f849c")]. *)
Definition status_color (status : string) : string :=
  if (status =? "running")%string then "#a6e3a1"
  else if (status =? "completed")%string then "#89b4fa"
  else if (status =? "failed")%string then "#f38ba8"
  else if (status =? "stopped")%string then "#7f849c"
  else "#7f849c".

(** The column separator of a worker row, U+2502, as its three bytes: the
    strings here are byte strings, which for the ASCII text the columns
    hold are Python's. *)
Definition BAR : string :=
  String (ascii_of_nat 226)
    (String (ascii_of_nat 148) (String (ascii_of_nat 130) EmptyString)).

Section View.
Context {F : Type} `{PyFloat F} `{PyFloatDisplay F}.

(** [a / b]: [None] stands for the [ZeroDivisionError]. *)
Definition div_int (a b : Z) : option F :=
  if b =? 0 then None else Some (int_truediv a b).

Definition div_float (x : F) (b : Z) : option F :=
  if b =? 0 then None else Some (float_truediv x b).

Definition format_tokens (count : Z) : option string :=
  if 1000000 <=? count then
    match div_int count 1000000 with
    | Some q => Some (format_1f q ++ "M")%string
    | None => None
    end
  else if 1000 <=? count then
    match div_int count 1000 with
    | Some q => Some (format_1f q ++ "K")%string
    | None => None
    end
  else Some (str_int count).

Definition format_cost (cost : F) : string := ("$" ++ format_2f cost)%string.

(** The f-string of lines 323-327. *)
Definition worker_row (worker : SummaryRow F) : Widget :=
  Static
    ("[" ++ status_color (row_status worker) ++ "]"
       ++ ljust 10 (row_status worker) ++ "[/] " ++ BAR ++ " "
       ++ "[#cba6f7]" ++ ljust 25 (take 25 (row_task_id worker)) ++ "[/] "
       ++ BAR ++ " "
       ++ "[#7f849c]" ++ rjust 3 (str_int (row_turns worker)) ++ " turns[/] "
       ++ BAR ++ " "
       ++ "[#7f849c]" ++ rjust 4 (str_int (row_tool_calls worker))
       ++ " tools[/] " ++ BAR ++ " "
       ++ "[#a6e3a1]" ++ format_cost (row_cost_usd worker) ++ "[/]")%string
    "worker-row".

(** Lines 239-241. *)
Definition success_rate (m : AggregateMetrics F) : option F :=
  if 0 <? completed_workers m + failed_workers m then
    match div_int (completed_workers m)
            (completed_workers m + failed_workers m) with
    | Some q => Some (float_mul q 100)
    | None => None
    end
  else Some fzero.

(** The first grid, lines 243-262. *)
Definition summary_cards (m : AggregateMetrics F) : option (list Widget) :=
  match success_rate m with
  | Some rate =>
      Some
        [ MetricCard "Workers" (str_int (total_workers m))
            (str_int (running_workers m) ++ " running / "
               ++ str_int (completed_workers m) ++ " done / "
               ++ str_int (failed_workers m) ++ " failed")%string;
          MetricCard "Success Rate" (format_1f rate ++ "%")%string
            (str_int (completed_workers m) ++ " of "
               ++ str_int (completed_workers m + failed_workers m))%string;
          MetricCard "Total Time" (format_duration (total_duration_ms m)) "";
          MetricCard "Total Cost" (format_cost (total_cost_usd m)) "" ]
  | None => None
  end.

(** The second grid, lines 266-285. *)
Definition conversation_cards (m : AggregateMetrics F)
  : option (list Widget) :=
  match div_int (total_turns m) (Z.max 1 (total_workers m)),
        div_int (total_tool_calls m) (Z.max 1 (total_turns m)),
        format_tokens (total_tokens m),
        div_float (total_cost_usd m) (Z.max 1 (total_workers m)) with
  | Some per_worker, Some per_turn, Some toks, Some cost =>
      Some
        [ MetricCard "Total Turns" (str_int (total_turns m))
            (format_1f per_worker ++ " avg/worker")%string;
          MetricCard "Tool Calls" (str_int (total_tool_calls m))
            (format_1f per_turn ++ " avg/turn")%string;
          MetricCard "Total Tokens" toks "";
          MetricCard "Cost/Worker" (format_cost cost) "average" ]
  | _, _, _, _ => None
  end.

(** The third grid, lines 289-308. *)
Definition token_cards (m : AggregateMetrics F) : option (list Widget) :=
  match format_tokens (input_tokens m), format_tokens (output_tokens m),
        format_tokens (cache_creation_tokens m),
        format_tokens (cache_read_tokens m) with
  | Some i, Some o, Some cc, Some cr =>
      Some [ MetricCard "Input" i ""; MetricCard "Output" o "";
             MetricCard "Cache Creation" cc ""; MetricCard "Cache Read" cr "" ]
  | _, _, _, _ => None
  end.

(** Lines 310-329. *)
Definition worker_rows (m : AggregateMetrics F) : list Widget :=
  match worker_summaries m with
  | [] => []
  | _ :: _ =>
      Static "WORKERS BY COST" "section-title"
      :: map worker_row (firstn 10 (worker_summaries m))
  end.

(** What the generator [compose] yields for the snapshot it has loaded, in
    order; [None] when a division raised. The containers it enters with
    [with] are not yielded. *)
Definition compose_yields (m : AggregateMetrics F) : option (list Widget) :=
  if total_workers m =? 0 then
    Some [Static "No workers found. Run workers to see metrics."
            "empty-message"]
  else
    match summary_cards m, conversation_cards m, token_cards m with
    | Some s, Some c, Some t =>
        Some (Static "SUMMARY" "section-title" :: s
              ++ Static "CONVERSATION STATS" "section-title" :: c
              ++ Static "TOKEN BREAKDOWN" "section-title" :: t
              ++ worker_rows m)
    | _, _, _ => None
    end.

(** ** Reading a snapshot against the fleet *)

(** What the provider delivers for the workers, in the order of the scan;
    the first failure ends it. *)
Fixpoint all_logs (provider : LogProvider F) (dir : string)
    (workers : list Worker) : outcome (list (list Result * Summary F)) :=
  match workers with
  | [] => Return []
  | w :: rest =>
      x <- worker_log provider dir w ;;
      xs <- all_logs provider dir rest ;;
      Return (x :: xs)
  end.

(** The costs added up the way the loop does, from the left. *)
Definition sum_costs (costs : list F) : F := fold_left fadd costs fzero.

End View.

(** The elements whose key [<] does not tell apart from [k]. *)
Definition tied {A K : Type} (lt : K -> K -> bool) (key : A -> K) (k : K)
    (x : A) : bool :=
  negb (lt k (key x)) && negb (lt (key x) k).

Fixpoint sum (l : list Z) : Z :=
  match l with
  | [] => 0
  | x :: rest => x + sum rest
  end.

(** One for [True], zero for [False]. *)
Definition one (b : bool) : Z := if b then 1 else 0.

(** The workers of a fleet with a given status. *)
Definition count_of (st : WorkerStatus) (ws : list Worker) : Z :=
  Z.of_nat (List.length
              (filter (fun w => WorkerStatus_eqb (status w) st) ws)).

Definition is_comma (c : ascii) : bool := (nat_of_ascii c =? 44)%nat.

(** A string without a comma. *)
Definition comma_free (s : string) : Prop :=
  all_chars (fun c => negb (is_comma c)) s = true.

Definition is_LF (c : ascii) : bool := (nat_of_ascii c =? 10)%nat.

(** A string of one line. *)
Definition one_line (s : string) : Prop :=
  all_chars (fun c => negb (is_LF c)) s = true.

(** The whole-number floats again: divisions and formats for them, with
    quotients cut to whole numbers, enough to run the display. *)
#[export] Instance whole_display : PyFloatDisplay Z :=
  {| int_truediv := Z.div; float_truediv := Z.div; float_mul := Z.mul;
     format_1f := fun n => (str_int n ++ ".0")%string;
     format_2f := fun n => (str_int n ++ ".00")%string |}.

(** An external command that fails in a given way. *)
Definition failing_run (e : exception) : WorkerControl.subprocess_run :=
  fun _ _ => Raise e.

End MetricsView.

(* ================================================================== *)
(** * widgets/metrics_panel.py: the panel widget *)
(* ================================================================== *)

Module MetricsPanelWidget.

Import WorkerScanner MetricsPanel Fixtures MetricsView.

Local Open Scope list_scope.

(** The two Textual containers [compose] opens with [with], with their
    classes. *)
Inductive Container : Type :=
| Grid (classes : string)
| Vertical (classes : string).

(** Textual, as far as [compose] calls into it when a [with] block opens and
    closes: [__enter__] and [__exit__] of the container. Both are library
    code outside this repository, and both may raise; what they do is taken
    to depend on the container alone. *)
Record Textual : Type := {
  enter : Container -> outcome unit;
  leave : Container -> outcome unit
}.

(** One step of the generator [compose] behind its first statement: it
    yields a widget, it enters or leaves a [with] block, or an expression
    of it raises. *)
Inductive compose_step : Type :=
| yields (w : Widget)
| enters (c : Container)
| leaves (c : Container)
| raises (e : exception).

(** What the methods do to the screen. *)
Inductive ui_effect : Type :=
| remove_children
| mount (w : Widget).

(** The widgets a run of steps yields when nothing stops it. *)
Fixpoint widgets_of (steps : list compose_step) : list Widget :=
  match steps with
  | [] => []
  | yields w :: rest => w :: widgets_of rest
  | enters _ :: rest | leaves _ :: rest => widgets_of rest
  | raises _ :: _ => []
  end.



Section Script.
Context {F : Type} `{PyFloat F} `{PyFloatDisplay F}.

(** [yield MetricCard(title, value, secondary)] where an argument may
    divide: [None] stands for its [ZeroDivisionError]. *)
Definition card (title : string) (value secondary : option string)
  : compose_step :=
  match value, secondary with
  | Some v, Some s => yields (MetricCard title v s)
  | _, _ => raises ZeroDivisionError
  end.

(** Lines 238-262: the first grid. [success_rate] is computed inside the
    block, before the first card. *)
Definition summary_steps (m : AggregateMetrics F) : list compose_step :=
  enters (Grid "metrics-grid")
  :: match success_rate m with
     | None => [raises ZeroDivisionError]
     | Some rate =>
         [ yields
             (MetricCard "Workers" (str_int (total_workers m))
                (str_int (running_workers m) ++ " running / "
                   ++ str_int (completed_workers m) ++ " done / "
                   ++ str_int (failed_workers m) ++ " failed")%string);
           yields
             (MetricCard "Success Rate" (format_1f rate ++ "%")%string
                (str_int (completed_workers m) ++ " of "
                   ++ str_int (completed_workers m + failed_workers m))%string);
           yields
             (MetricCard "Total Time" (format_duration (total_duration_ms m))
                "");
           yields (MetricCard "Total Cost" (format_cost (total_cost_usd m)) "");
           leaves (Grid "metrics-grid") ]
     end.

(** Lines 265-285: the second grid. *)
Definition conversation_steps (m : AggregateMetrics F) : list compose_step :=
  [ enters (Grid "metrics-grid");
    card "Total Turns" (Some (str_int (total_turns m)))
      (option_map (fun q => (format_1f q ++ " avg/worker")%string)
         (div_int (total_turns m) (Z.max 1 (total_workers m))));
    card "Tool Calls" (Some (str_int (total_tool_calls m)))
      (option_map (fun q => (format_1f q ++ " avg/turn")%string)
         (div_int (total_tool_calls m) (Z.max 1 (total_turns m))));
    card "Total Tokens" (format_tokens (total_tokens m)) (Some "");
    card "Cost/Worker"
      (option_map format_cost
         (div_float (total_cost_usd m) (Z.max 1 (total_workers m))))
      (Some "average");
    leaves (Grid "metrics-grid") ].

(** Lines 288-308: the third grid. *)
Definition token_steps (m : AggregateMetrics F) : list compose_step :=
  [ enters (Grid "metrics-grid");
    card "Input" (format_tokens (input_tokens m)) (Some "");
    card "Output" (format_tokens (output_tokens m)) (Some "");
    card "Cache Creation" (format_tokens (cache_creation_tokens m)) (Some "");
    card "Cache Read" (format_tokens (cache_read_tokens m)) (Some "");
    leaves (Grid "metrics-grid") ].

(** Lines 310-329: the worker list. *)
Definition worker_steps (m : AggregateMetrics F) : list compose_step :=
  match worker_summaries m with
  | [] => []
  | _ :: _ =>
      yields (Static "WORKERS BY COST" "section-title")
      :: enters (Vertical "workers-list")
      :: map (fun worker => yields (worker_row worker))
           (firstn 10 (worker_summaries m))
      ++ [leaves (Vertical "workers-list")]
  end.

(** Lines 230-329: the body of [compose] behind [self._load_metrics()], as
    the steps it takes for the snapshot it has loaded. *)
Definition compose_script (m : AggregateMetrics F) : list compose_step :=
  if total_workers m =? 0 then
    [yields (Static "No workers found. Run workers to see metrics."
               "empty-message")]
  else
    yields (Static "SUMMARY" "section-title")
    :: summary_steps m
    ++ yields (Static "CONVERSATION STATS" "section-title")
    :: conversation_steps m
    ++ yields (Static "TOKEN BREAKDOWN" "section-title")
    :: token_steps m
    ++ worker_steps m.
End Script.

Section Widget.
Context {F : Type} `{PyFloat F} `{PyFloatDisplay F}.

(** What is on disk at one moment, as the aggregator sees it: what a scan of
    a root finds and what the logs hold. *)
Record World : Type := {
  world_scan : string -> list Worker;
  world_provider : LogProvider F
}.

(** The attributes of a [MetricsPanel], and what has been done to its
    children so far, oldest first. *)
Record Panel : Type := {
  ralph_dir : string;
  metrics : AggregateMetrics F;
  _last_data_hash : string;
  screen : list ui_effect
}.

(** [__init__]. *)
Definition init (ralph_dir : string) : Panel :=
  {| ralph_dir := ralph_dir; metrics := empty_metrics;
     _last_data_hash := ""; screen := [] |}.

(** [self.metrics = m]. *)
Definition with_metrics (m : AggregateMetrics F) (self : Panel) : Panel :=
  {| ralph_dir := ralph_dir self; metrics := m;
     _last_data_hash := _last_data_hash self; screen := screen self |}.

(** [self._last_data_hash = h]. *)
Definition with_hash (h : string) (self : Panel) : Panel :=
  {| ralph_dir := ralph_dir self; metrics := metrics self;
     _last_data_hash := h; screen := screen self |}.

(** [self.remove_children()] and [self.mount(widget)]. *)
Definition show (fx : ui_effect) (self : Panel) : Panel :=
  {| ralph_dir := ralph_dir self; metrics := metrics self;
     _last_data_hash := _last_data_hash self;
     screen := screen self ++ [fx] |}.

(** The panel after the widgets [ws] have been mounted, one after the
    other. *)
Definition mounted (ws : list Widget) (self : Panel) : Panel :=
  {| ralph_dir := ralph_dir self; metrics := metrics self;
     _last_data_hash := _last_data_hash self;
     screen := screen self ++ map mount ws |}.

(** On the disk [w], the provider raises [e] for a worker under [dir] and
    delivers for every worker the scan lists before that one. *)
Definition first_failure (w : World) (dir : string) (e : exception) : Prop :=
  exists before worker after,
    world_scan w dir = before ++ worker :: after
    /\ (forall v, In v before ->
          exists x, worker_log (world_provider w) dir v = Return x)
    /\ worker_log (world_provider w) dir worker = Raise e.

(** How a method ends: it returns or it raises, and either way the panel is
    left in some state. *)
Inductive ended : Type :=
| returned (self : Panel)
| raised (self : Panel) (e : exception).

Definition state_of (r : ended) : Panel :=
  match r with
  | returned self | raised self _ => self
  end.

(** [_load_metrics], run when the disk is [w]. When the aggregator raises,
    [self.metrics] is not assigned. *)
Definition _load_metrics (w : World) (self : Panel) : outcome Panel :=
  m <- aggregate_worker_metrics (world_scan w) (world_provider w)
         (ralph_dir self) ;;
  Return (with_metrics m self).

(** [compose], started when the disk is [w]: it loads the metrics, and what
    follows are the steps for the snapshot it loaded. *)
Definition compose (w : World) (self : Panel)
  : outcome (Panel * list compose_step) :=
  self <- _load_metrics w self ;;
  Return (self, compose_script (metrics self)).

(** An exception on its way out of the [with] blocks that are open,
    innermost first: each [__exit__] is called, and what it raises replaces
    the exception. *)
Fixpoint unwind (tx : Textual) (open : list Container) (e : exception)
  : exception :=
  match open with
  | [] => e
  | c :: rest =>
      match leave tx c with
      | Return _ => unwind tx rest e
      | Raise e' => unwind tx rest e'
      end
  end.

(** [for widget in <steps>: self.mount(widget)]: the generator is run step
    by step, and each widget is mounted when it is yielded. *)
Fixpoint mount_each (tx : Textual) (steps : list compose_step)
    (open : list Container) (self : Panel) : ended :=
  match steps with
  | [] => returned self
  | yields w :: rest => mount_each tx rest open (show (mount w) self)
  | enters c :: rest =>
      match enter tx c with
      | Return _ => mount_each tx rest (c :: open) self
      | Raise e => raised self (unwind tx open e)
      end
  | leaves c :: rest =>
      match leave tx c with
      | Return _ => mount_each tx rest (tl open) self
      | Raise e => raised self (unwind tx (tl open) e)
      end
  | raises e :: _ => raised self (unwind tx open e)
  end.

(** [refresh_data]. The disk is read twice, by the [_load_metrics] of line
    338 when it is [now] and by the one [compose] starts with when it is
    [later]. ([old_metrics] is assigned and not read.) *)
Definition refresh_data (tx : Textual) (now later : World) (self : Panel)
  : ended :=
  match _load_metrics now self with
  | Raise e => raised self e
  | Return self =>
      let new_hash := _compute_data_hash (metrics self) in
      if (new_hash =? _last_data_hash self)%string then returned self
      else
        let self := with_hash new_hash self in
        let self := show remove_children self in
        match compose later self with
        | Raise e => raised self e
        | Return (self, steps) => mount_each tx steps [] self
        end
  end.
End Widget.

Arguments World F : clear implicits.
Arguments Panel F : clear implicits.
Arguments ended F : clear implicits.

(** ** Textual and disks to run the panel on *)

(** Textual when [compose] is iterated the way [refresh_data] does it, by a
    [for] loop of its own: no compose stack is open, [__enter__] appends to
    the last element of an empty list and raises [IndexError]. *)
Definition direct_iteration : Textual :=
  {| enter := fun _ => Raise IndexError; leave := fun _ => Return tt |}.


(** The fleet of three and its logs. *)
Definition fleet_disk : World Z :=
  {| world_scan := fun _ => fleet; world_provider := logs |}.


(** The fleet when the log directory of TASK-002 cannot be read. *)
Definition unreadable_disk : World Z :=
  {| world_scan := fun _ => fleet; world_provider := logs_unreadable |}.

End MetricsPanelWidget.

(* ================================================================== *)
(** * Facts about Python strings and sorting *)
(* ================================================================== *)

Module PyFacts.

Lemma prefix_true_iff (a s : string) :
  String.prefix a s = true <-> exists rest, s = (a ++ rest)%string.
Proof.
  revert s; induction a as [|c a IH]; intros s; simpl.
  - split; [intros _; now exists s | intros _; now destruct s].
  - destruct s as [|d s]; simpl.
    + split; [discriminate | intros [r Hr]; discriminate].
    + destruct (ascii_dec c d) as [->|Hne].
      * rewrite IH. split; intros [r Hr]; exists r; congruence.
      * split; [discriminate | intros [r Hr]; congruence].
Qed.

Lemma contains_unfold (b s : string) :
  contains b s =
  String.prefix b s ||
  match s with
  | EmptyString => false
  | String _ s' => contains b s'
  end.
Proof. destruct s; simpl; match goal with |- context [if ?c then _ else _] => now destruct c end. Qed.

Lemma contains_occurs (b s : string) :
  contains b s = true <-> occurs_in b s.
Proof.
  induction s as [|c s IH]; rewrite contains_unfold, orb_true_iff,
    prefix_true_iff.
  - split.
    + intros [[r Hr]|Hf]; [now exists ""%string, r | discriminate].
    + intros [pre [post Hs]]. left.
      destruct pre; simpl in Hs; [eauto | discriminate].
  - rewrite IH. split.
    + intros [[r Hr]|[pre [post Hs]]].
      * now exists ""%string, r.
      * exists (String c pre), post. now rewrite Hs.
    + intros [pre [post Hs]]. destruct pre as [|d pre]; simpl in Hs.
      * left; eauto.
      * right. injection Hs as _ Hs. now exists pre, post.
Qed.

Section SortFacts.
Context {A K : Type}.
Variable lt : K -> K -> bool.
Variable key : A -> K.

Lemma insert_desc_perm (x : A) (l : list A) :
  Permutation (x :: l) (PySort.insert_desc lt key x l).
Proof.
  induction l as [|y l IH]; simpl; [reflexivity|].
  destruct (lt (key x) (key y)); [|reflexivity].
  rewrite perm_swap. now apply perm_skip.
Qed.

Lemma sort_desc_perm (l : list A) :
  Permutation l (PySort.sort_desc lt key l).
Proof.
  induction l as [|x l IH]; simpl; [reflexivity|].
  rewrite <- insert_desc_perm. now apply perm_skip.
Qed.

(** The keys on which [<] behaves as on numbers: it is asymmetric and
    [>=] is transitive. For floats these are the values that are not
    NaN. *)
Variable numeric : K -> Prop.
Hypothesis lt_asym :
  forall a b, numeric a -> numeric b -> lt a b = true -> lt b a = false.
Hypothesis ge_trans :
  forall a b c, numeric a -> numeric b -> numeric c ->
    lt a b = false -> lt b c = false -> lt a c = false.

Lemma insert_desc_descending (x : A) (l : list A) :
  numeric (key x) -> Forall (fun y => numeric (key y)) l ->
  PySort.descending lt key l ->
  PySort.descending lt key (PySort.insert_desc lt key x l).
Proof.
  unfold PySort.descending.
  intros Hx Hl Hs. induction Hs as [|y l Hs IH Hy]; simpl.
  - constructor; constructor.
  - inversion Hl as [|? ? Hny Hnl]; subst.
    destruct (lt (key x) (key y)) eqn:Hxy.
    + constructor; [now apply IH|].
      apply (Permutation_Forall (insert_desc_perm x l)).
      constructor; [|exact Hy].
      now apply lt_asym.
    + constructor; [now constructor|].
      constructor; [exact Hxy|].
      rewrite Forall_forall in *. intros z Hz.
      apply (ge_trans _ (key y)); auto.
Qed.

Lemma sort_desc_descending (l : list A) :
  Forall (fun y => numeric (key y)) l ->
  PySort.descending lt key (PySort.sort_desc lt key l).
Proof.
  induction l as [|x l IH]; simpl; intros Hl.
  - constructor.
  - inversion Hl; subst.
    apply insert_desc_descending; auto.
    apply (Permutation_Forall (sort_desc_perm l)); assumption.
Qed.
End SortFacts.

Lemma StronglySorted_impl {A : Type} (R R' : A -> A -> Prop) (l : list A) :
  (forall a b, R a b -> R' a b) -> StronglySorted R l -> StronglySorted R' l.
Proof.
  intros HR Hs. induction Hs as [|a l Hs IH Ha]; constructor; [exact IH|].
  eapply Forall_impl; [|exact Ha]. intros b. apply HR.
Qed.

Lemma sort_desc_Z_descending {A : Type} (key : A -> Z) (l : list A) :
  PySort.descending Z.ltb key (PySort.sort_desc Z.ltb key l).
Proof.
  apply (sort_desc_descending Z.ltb key (fun _ => True)).
  - intros a b _ _ Hab. apply Z.ltb_lt in Hab. apply Z.ltb_ge. lia.
  - intros a b c _ _ _ Hab Hbc. apply Z.ltb_ge in Hab, Hbc. apply Z.ltb_ge. lia.
  - apply Forall_forall; trivial.
Qed.

End PyFacts.

(* ================================================================== *)
(** * The control facade and the probes (worker_control.py) *)
(* ================================================================== *)

Module WorkerControlFacts.

Import WorkerControl PyFacts Fixtures.

Lemma transport_failure_caught (e : exception) :
  transport_failure e ->
  caught_by [TimeoutExpired; FileNotFoundError; OSError] e = true.
Proof. intros [->|He]; [reflexivity|]. destruct e; try discriminate; reflexivity. Qed.

Lemma transport_failure_dec (e : exception) :
  caught_by [TimeoutExpired; FileNotFoundError; OSError] e = true
  <-> transport_failure e.
Proof.
  split; [|apply transport_failure_caught].
  unfold transport_failure. destruct e; cbv; auto; discriminate.
Qed.

(** What the facade makes of each way the external command can end. *)
Lemma facade_outcome (o : outcome CompletedProcess) :
  let flag :=
    try_except (result <- o ;; Return (returncode result =? 0))
      [TimeoutExpired; FileNotFoundError; OSError] (Return false) in
  (forall r, o = Return r -> flag = Return (returncode r =? 0))
  /\ (forall e, o = Raise e -> transport_failure e -> flag = Return false)
  /\ (forall e, o = Raise e -> ~ transport_failure e -> flag = Raise e).
Proof.
  cbv zeta. split; [|split].
  - intros r ->. reflexivity.
  - intros e -> He. cbv [try_except bind].
    now rewrite (transport_failure_caught e He).
  - intros e -> He. cbv [try_except bind].
    destruct (caught_by _ e) eqn:Hc; [|reflexivity].
    now apply transport_failure_dec in Hc.
Qed.

(** The external command refuses a worker id with a NUL byte with a
    [ValueError], which is neither a timeout nor an [OSError]: [stop_worker]
    and [kill_worker] raise it. So it is not so that they return a flag
    whatever the command does. *)
Lemma stop_kill_raise_value_error :
  stop_worker nul_refusing_run ("worker-TASK-001-17" ++ NUL)
  = Raise ValueError
  /\ kill_worker nul_refusing_run ("worker-TASK-001-17" ++ NUL)
     = Raise ValueError
  /\ ~ (forall (run : subprocess_run) (worker_id : string),
          exists ok : bool, stop_worker run worker_id = Return ok)
  /\ ~ (forall (run : subprocess_run) (worker_id : string),
          exists ok : bool, kill_worker run worker_id = Return ok).
Proof.
  split; [reflexivity|]. split; [reflexivity|]. split.
  - intros Hall.
    destruct (Hall nul_refusing_run ("worker-TASK-001-17" ++ NUL)) as [ok Hok].
    discriminate Hok.
  - intros Hall.
    destruct (Hall nul_refusing_run ("worker-TASK-001-17" ++ NUL)) as [ok Hok].
    discriminate Hok.
Qed.

(** C6, as amended. [stop_worker] and [kill_worker] return a boolean unless
    the external command raises something that is neither a timeout nor an
    [OSError] (a missing command is one); such an exception they raise as it
    is. The boolean is [True] exactly when the command delivered exit code
    zero; a timeout and every [OSError] give [False]. The command is given
    35 seconds to stop a worker, strictly more than the 10 it is given to
    kill one. *)
Theorem stop_kill_flag_or_uncaught :
  forall (run : subprocess_run) (worker_id : string),
    ((exists ok : bool, stop_worker run worker_id = Return ok) <->
     (forall e, run ["wiggum"; "stop"; worker_id] stop_timeout = Raise e ->
                transport_failure e))
    /\ (stop_worker run worker_id = Return true <->
        exists r, run ["wiggum"; "stop"; worker_id] stop_timeout = Return r
                  /\ returncode r = 0)
    /\ (forall e, run ["wiggum"; "stop"; worker_id] stop_timeout = Raise e ->
          transport_failure e -> stop_worker run worker_id = Return false)
    /\ (forall e, run ["wiggum"; "stop"; worker_id] stop_timeout = Raise e ->
          ~ transport_failure e -> stop_worker run worker_id = Raise e)
    /\ ((exists ok : bool, kill_worker run worker_id = Return ok) <->
        (forall e, run ["wiggum"; "kill"; worker_id] kill_timeout = Raise e ->
                   transport_failure e))
    /\ (kill_worker run worker_id = Return true <->
        exists r, run ["wiggum"; "kill"; worker_id] kill_timeout = Return r
                  /\ returncode r = 0)
    /\ (forall e, run ["wiggum"; "kill"; worker_id] kill_timeout = Raise e ->
          transport_failure e -> kill_worker run worker_id = Return false)
    /\ (forall e, run ["wiggum"; "kill"; worker_id] kill_timeout = Raise e ->
          ~ transport_failure e -> kill_worker run worker_id = Raise e)
    /\ kill_timeout < stop_timeout.
Proof.
  assert (Hflag : forall o : outcome CompletedProcess,
    let flag :=
      try_except (result <- o ;; Return (returncode result =? 0))
        [TimeoutExpired; FileNotFoundError; OSError] (Return false) in
    ((exists ok : bool, flag = Return ok) <->
     (forall e, o = Raise e -> transport_failure e))
    /\ (flag = Return true <-> exists r, o = Return r /\ returncode r = 0)
    /\ (forall e, o = Raise e -> transport_failure e -> flag = Return false)
    /\ (forall e, o = Raise e -> ~ transport_failure e -> flag = Raise e)).
  { intros o. destruct (facade_outcome o) as (Hr & Hc & Hu). cbv zeta in *.
    split; [|split; [|split; assumption]].
    - split.
      + intros [ok Hok] e He.
        destruct (caught_by [TimeoutExpired; FileNotFoundError; OSError] e)
          eqn:Hcaught; [now apply transport_failure_dec|].
        assert (Hn : ~ transport_failure e).
        { intros Ht. apply transport_failure_dec in Ht. congruence. }
        rewrite (Hu e He Hn) in Hok. discriminate Hok.
      + intros Hall. destruct o as [r|e].
        * exists (returncode r =? 0). now apply Hr.
        * exists false. apply (Hc e eq_refl). now apply Hall.
    - split.
      + intros Ht. destruct o as [r|e].
        * exists r. split; [reflexivity|].
          rewrite (Hr r eq_refl) in Ht. injection Ht as Ht.
          now apply Z.eqb_eq.
        * exfalso.
          destruct (caught_by [TimeoutExpired; FileNotFoundError; OSError] e)
            eqn:Hcaught.
          -- apply transport_failure_dec in Hcaught.
             rewrite (Hc e eq_refl Hcaught) in Ht. discriminate Ht.
          -- assert (Hn : ~ transport_failure e).
             { intros Hx. apply transport_failure_dec in Hx. congruence. }
             rewrite (Hu e eq_refl Hn) in Ht. discriminate Ht.
      + intros [r [-> Hz]]. rewrite (Hr r eq_refl). f_equal.
        now apply Z.eqb_eq. }
  intros run worker_id.
  destruct (Hflag (run ["wiggum"; "stop"; worker_id] stop_timeout))
    as (S1 & S2 & S3 & S4).
  destruct (Hflag (run ["wiggum"; "kill"; worker_id] kill_timeout))
    as (K1 & K2 & K3 & K4).
  repeat (split; [assumption|]). reflexivity.
Qed.

Lemma stop_kill_flag_or_uncaught_witness :
  stop_worker hanging_wiggum "worker-TASK-001-1700000000" = Return false
  /\ kill_worker hanging_wiggum "worker-TASK-001-1700000000" = Return true
  /\ stop_worker nul_refusing_run ("worker-TASK-001-17" ++ NUL)
     = Raise ValueError.
Proof.
  destruct (stop_kill_flag_or_uncaught hanging_wiggum
              "worker-TASK-001-1700000000")
    as (_ & _ & Hstop & _ & _ & Hkill & _).
  destruct (stop_kill_flag_or_uncaught nul_refusing_run
              ("worker-TASK-001-17" ++ NUL))
    as (_ & _ & _ & Hraise & _).
  split; [|split].
  - apply (Hstop TimeoutExpired); [reflexivity | left; reflexivity].
  - apply Hkill. exists {| returncode := 0 |}. split; reflexivity.
  - apply (Hraise ValueError); [reflexivity|].
    intros [Ht|Ho]; discriminate.
Defined.

(** What the facade does not promise: an exception that is neither a timeout
    nor an [OSError] goes through. *)
Example stop_worker_lets_value_error_through :
  stop_worker (fun _ _ => Raise ValueError) "worker-TASK-001-1700000000"
  = Raise ValueError.
Proof. reflexivity. Qed.

(** C7. [is_process_running] answers [False] when [os.kill(pid, 0)] finds no
    such process, and [True] both when the signal check goes through and
    when the process is there but the caller may not signal it. *)
Theorem is_process_running_tests_existence :
  forall (os_kill : os_kill_t) (pid : Z),
    (os_kill pid 0 = Raise ProcessLookupError ->
     is_process_running os_kill pid = Return false)
    /\ (os_kill pid 0 = Return tt ->
        is_process_running os_kill pid = Return true)
    /\ (os_kill pid 0 = Raise PermissionError ->
        is_process_running os_kill pid = Return true).
Proof.
  intros os_kill pid. unfold is_process_running.
  split; [|split]; intros ->; reflexivity.
Qed.

Lemma is_process_running_tests_existence_witness :
  is_process_running (table_kill some_processes) 5555 = Return false
  /\ is_process_running (table_kill some_processes) 4242 = Return true
  /\ is_process_running (table_kill some_processes) 17 = Return true.
Proof.
  split; [|split].
  - apply (proj1 (is_process_running_tests_existence
                    (table_kill some_processes) 5555)).
    reflexivity.
  - apply (proj1 (proj2 (is_process_running_tests_existence
                           (table_kill some_processes) 4242))).
    reflexivity.
  - apply (proj2 (proj2 (is_process_running_tests_existence
                           (table_kill some_processes) 17))).
    reflexivity.
Defined.

(** On a process table the probe is exactly existence. *)
Lemma is_process_running_on_table (t : process_table) (pid : Z) :
  is_process_running (table_kill t) pid
  = Return (match lookup_pid t pid with Some _ => true | None => false end).
Proof.
  unfold is_process_running, table_kill.
  destruct (lookup_pid t pid) as [pr|]; [|reflexivity].
  now destruct (proc_signalable pr).
Qed.

Example cmdline_path_12345 : cmdline_path 12345 = "/proc/12345/cmdline".
Proof. reflexivity. Qed.

(** C10. [verify_worker_process] returns [True] exactly when
    [/proc/<pid>/cmdline] exists and the text read from it contains [bash]
    (so every process with [bash] in its command line passes, whatever it
    is), and an [OSError], [PermissionError] included, raised by the
    existence test or by the read makes it return [False]. *)
Theorem verify_worker_process_bash :
  forall (fs : filesystem) (pid : Z),
    (verify_worker_process fs pid = Return true <->
     path_exists fs (cmdline_path pid) = Return true
     /\ exists cmdline,
          read_text fs (cmdline_path pid) = Return cmdline
          /\ occurs_in "bash" cmdline)
    /\ (forall e,
          isinstance e OSError = true ->
          path_exists fs (cmdline_path pid) = Raise e
          \/ (path_exists fs (cmdline_path pid) = Return true
              /\ read_text fs (cmdline_path pid) = Raise e) ->
          verify_worker_process fs pid = Return false).
Proof.
  intros fs pid. unfold verify_worker_process. split.
  - destruct (path_exists fs (cmdline_path pid)) as [[|]|e]; simpl.
    + destruct (read_text fs (cmdline_path pid)) as [cmdline|e]; simpl.
      * split.
        -- intros Hc. injection Hc as Hc. apply contains_occurs in Hc. eauto.
        -- intros [_ [c [Hr Hc]]]. injection Hr as <-.
           apply contains_occurs in Hc. now rewrite Hc.
      * split.
        -- destruct e; discriminate.
        -- intros [_ [c [Hr _]]]. discriminate.
    + split; [discriminate | intros [Hf _]; discriminate].
    + split.
      * destruct e; discriminate.
      * intros [Hf _]; discriminate.
  - intros e He [Hx | [Hx Hr]]; rewrite Hx; simpl.
    + unfold caught_by; simpl. now rewrite He.
    + rewrite Hr; simpl. unfold caught_by; simpl. now rewrite He.
Qed.

Lemma verify_worker_process_bash_witness :
  verify_worker_process (table_procfs some_processes) 17 = Return true.
Proof.
  apply (verify_worker_process_bash (table_procfs some_processes) 17).
  split; [reflexivity|].
  exists ("vim" ++ NUL ++ "notes-on-bash.txt" ++ NUL)%string.
  split; [reflexivity|].
  exists ("vim" ++ NUL ++ "notes-on-")%string, (".txt" ++ NUL)%string.
  reflexivity.
Defined.

(** The three processes of the table: the worker and the editor pass, the
    shell that is not bash does not, and a PID with no process does not. *)
Example verify_worker_process_on_table :
  map (verify_worker_process (table_procfs some_processes)) [4242; 17; 900; 5555]
  = [Return true; Return true; Return false; Return false].
Proof. reflexivity. Qed.

(** What is not caught: a command line that is not valid UTF-8. *)
Example verify_worker_process_undecodable :
  verify_worker_process
    {| path_exists := fun _ => Return true;
       read_text := fun _ => Raise UnicodeDecodeError |} 4242
  = Raise UnicodeDecodeError.
Proof. reflexivity. Qed.

End WorkerControlFacts.

(* ================================================================== *)
(** * The scanner (worker_scanner.py) *)
(* ================================================================== *)

Module WorkerScannerFacts.

Import WorkerScanner PyFacts.

(** ** Strings *)

Lemma span_inv (p : ascii -> bool) (s a b : string) :
  span p s = (a, b) ->
  s = (a ++ b)%string /\ all_chars p a = true /\ stops p b.
Proof.
  revert a b; induction s as [|c s IH]; simpl; intros a b Hs.
  - injection Hs as <- <-. simpl; auto.
  - destruct (p c) eqn:Hc.
    + destruct (span p s) as [a' b'] eqn:Hsp.
      injection Hs as <- <-.
      destruct (IH a' b' eq_refl) as [-> [Ha Hb]].
      simpl. rewrite Hc, Ha. auto.
    + injection Hs as <- <-. simpl; auto.
Qed.

Lemma span_app (p : ascii -> bool) (a b : string) :
  all_chars p a = true -> stops p b -> span p (a ++ b) = (a, b).
Proof.
  induction a as [|c a IH]; simpl; intros Ha Hb.
  - destruct b as [|d b]; simpl in *; [reflexivity | now rewrite Hb].
  - apply andb_true_iff in Ha as [Hc Ha].
    now rewrite Hc, (IH Ha Hb).
Qed.

Lemma strip_prefix_inv (pre s r : string) :
  strip_prefix pre s = Some r -> s = (pre ++ r)%string.
Proof.
  revert s; induction pre as [|a pre IH]; intros s; simpl.
  - now intros [= ->].
  - destruct s as [|b s]; [discriminate|].
    destruct (Ascii.eqb a b) eqn:Hab; [|discriminate].
    apply Ascii.eqb_eq in Hab as ->. intros Hs. now rewrite (IH _ Hs).
Qed.

Lemma strip_prefix_app (pre r : string) :
  strip_prefix pre (pre ++ r) = Some r.
Proof.
  induction pre as [|a pre IH]; simpl; [reflexivity|].
  now rewrite Ascii.eqb_refl.
Qed.

Lemma is_hyphen_inv (c : ascii) : is_hyphen c = true -> c = "-"%char.
Proof.
  unfold is_hyphen. intros Hc. apply Nat.eqb_eq in Hc.
  rewrite <- (ascii_nat_embedding c), Hc. reflexivity.
Qed.

Lemma len_nil_inv (s : string) : len s = 0 -> s = EmptyString.
Proof. destruct s; [reflexivity|]. unfold len; simpl; lia. Qed.

Lemma app_empty_r (s : string) : (s ++ "")%string = s.
Proof. induction s; simpl; congruence. Qed.

Lemma app_assoc (a b c : string) :
  ((a ++ b) ++ c)%string = (a ++ b ++ c)%string.
Proof. induction a; simpl; congruence. Qed.

(** ** The name pattern *)

Lemma WORKER_PATTERN_worker_name (name task ts : string) :
  WORKER_PATTERN name = Some (task, ts) <-> worker_name name task ts.
Proof.
  unfold WORKER_PATTERN, worker_name. split.
  - destruct (strip_prefix "worker-" name) as [r0|] eqn:H0; [|discriminate].
    apply strip_prefix_inv in H0.
    destruct (span is_upper r0) as [prefix r1] eqn:H1.
    apply span_inv in H1 as [-> [Hp _]].
    destruct r1 as [|c1 r2]; [discriminate|].
    destruct (span is_digit r2) as [number r3] eqn:H2.
    apply span_inv in H2 as [-> [Hn _]].
    destruct r3 as [|c2 r4]; [discriminate|].
    destruct (span is_digit r4) as [ts' r5] eqn:H3.
    apply span_inv in H3 as [-> [Ht _]].
    match goal with |- (if ?c then _ else _) = _ -> _ => destruct c eqn:Hc end;
      [|discriminate].
    intros [= <- <-].
    repeat (apply andb_true_iff in Hc as [Hc ?]).
    apply is_hyphen_inv in Hc. subst c1.
    match goal with H : is_hyphen c2 = true |- _ =>
      apply is_hyphen_inv in H; subst c2 end.
    match goal with H : (len r5 =? 0) = true |- _ =>
      apply Z.eqb_eq, len_nil_inv in H; subst r5 end.
    exists prefix, number. rewrite app_empty_r in H0.
    repeat match goal with H : (_ <=? _) = true |- _ => apply Z.leb_le in H end.
    repeat split; auto.
  - intros [prefix [number [-> [-> [Hp [Hpl [Hn [Hnl [Ht Htl]]]]]]]]].
    rewrite strip_prefix_app.
    rewrite (span_app is_upper prefix) by (auto; reflexivity).
    change ("-" ++ number ++ "-" ++ ts)%string
      with (String "-" (number ++ String "-" ts)).
    cbv beta iota.
    rewrite (span_app is_digit number) by (auto; reflexivity).
    cbv beta iota.
    rewrite <- (app_empty_r ts) at 1.
    rewrite (span_app is_digit ts) by (auto; exact I).
    cbv beta iota.
    replace (len "") with 0 by reflexivity.
    destruct Hpl, Hnl, Htl.
    repeat match goal with H : _ <= _ |- _ => apply Z.leb_le in H; rewrite H end.
    reflexivity.
Qed.

(** The four names [TestWorkerPattern] rejects and the four it accepts. *)
Example WORKER_PATTERN_passes_the_tests :
  test_worker_pattern WORKER_PATTERN = true.
Proof. reflexivity. Qed.

(** ** Listings *)

Lemma filter_map_In {A B : Type} (f : A -> option B) (l : list A) (b : B) :
  In b (filter_map f l) <-> exists a, In a l /\ f a = Some b.
Proof.
  induction l as [|a l IH]; simpl.
  - split; [tauto | intros [a [[] _]]].
  - destruct (f a) as [b'|] eqn:Hfa; simpl; rewrite IH; split.
    + intros [<-|[a' [Ha Hf]]]; eauto.
    + intros [a' [[<-|Ha] Hf]]; [left; congruence | eauto].
    + intros [a' [Ha Hf]]; eauto.
    + intros [a' [[<-|Ha] Hf]]; [congruence | eauto].
Qed.


Lemma scan_entry_is_worker_dir (probes : Probes) (root : string) (e : Entry) :
  is_some (scan_entry probes root e) = is_worker_dir e.
Proof.
  destruct e as [n|n d]; simpl; [reflexivity|].
  now destruct (WORKER_PATTERN n) as [[task ts]|].
Qed.

Lemma scan_entry_inv (probes : Probes) (root : string) (e : Entry) (w : Worker) :
  scan_entry probes root e = Some w <->
  exists name d task ts,
    e = Directory name d /\ worker_name name task ts
    /\ w = resolve_worker probes root name task ts d.
Proof.
  split.
  - destruct e as [n|n d]; simpl; [discriminate|].
    destruct (WORKER_PATTERN n) as [[task ts]|] eqn:Hp; [|discriminate].
    intros [= <-]. exists n, d, task, ts.
    apply WORKER_PATTERN_worker_name in Hp. auto.
  - intros [name [d [task [ts [-> [Hn ->]]]]]]. simpl.
    apply WORKER_PATTERN_worker_name in Hn. now rewrite Hn.
Qed.

(** Where a scanned worker comes from. *)
Lemma scan_workers_In (probes : Probes) (root : RalphDir)
    (entries : list Entry) (w : Worker) :
  workers_dir root = Some entries ->
  (In w (scan_workers probes root) <->
   exists name d task ts,
     In (Directory name d) entries /\ worker_name name task ts
     /\ w = resolve_worker probes (ralph_path root) name task ts d).
Proof.
  intros Hd. unfold scan_workers. rewrite Hd. split.
  - intros Hw.
    apply (Permutation_in _ (Permutation_sym (sort_desc_perm _ _ _))) in Hw.
    apply filter_map_In in Hw as [e [He Hs]].
    apply scan_entry_inv in Hs as [name [d [task [ts [-> [Hn ->]]]]]].
    exists name, d, task, ts. auto.
  - intros [name [d [task [ts [He [Hn ->]]]]]].
    apply (Permutation_in _ (sort_desc_perm _ _ _)).
    apply filter_map_In. exists (Directory name d). split; [exact He|].
    apply scan_entry_inv. exists name, d, task, ts. auto.
Qed.

Lemma existsb_filter {A : Type} (f : A -> bool) (l : list A) :
  existsb f l = true <-> filter f l <> [].
Proof.
  induction l as [|a l IH]; simpl.
  - split; [discriminate | congruence].
  - destruct (f a); simpl; [split; [discriminate | reflexivity] | exact IH].
Qed.

Lemma existsb_filter_false {A : Type} (f : A -> bool) (l : list A) :
  existsb f l = false <-> filter f l = [].
Proof.
  induction l as [|a l IH]; simpl.
  - tauto.
  - destruct (f a); simpl; [split; discriminate | exact IH].
Qed.

(** ** The tests of the scanner, run on the model *)

Example test_get_prd_status :
  get_prd_status (Some ("# PRD" ++ LF ++ "- [x] Task 1" ++ LF ++ "- [x] Task 2" ++ LF))
    = "complete"
  /\ get_prd_status (Some ("# PRD" ++ LF ++ "- [x] Task 1" ++ LF ++ "- [ ] Task 2" ++ LF))
    = "incomplete"
  /\ get_prd_status (Some ("# PRD" ++ LF ++ "- [x] Task 1" ++ LF ++ "- [*] Task 2" ++ LF))
    = "failed"
  /\ get_prd_status (Some mixed_prd) = "failed"
  /\ get_prd_status None = "incomplete"
  /\ get_prd_status (Some "") = "complete".
Proof. repeat split. Qed.

Example test_scan_workers :
  scan_workers (mock false false)
    {| ralph_path := "/tmp/.ralph"; workers_dir := None |} = []
  /\ scan_workers (mock false false) (tmp_ralph []) = []
  /\ scan_workers (mock false false) (tmp_ralph no_workers) = []
  /\ map (fun w => (id w, task_id w, status w))
       (scan_workers (mock false false)
          (tmp_ralph [Directory "worker-TASK-001-1700000000" done_dir]))
     = [("worker-TASK-001-1700000000", "TASK-001", COMPLETED)]
  /\ map (fun w => (status w, pid w))
       (scan_workers (mock true true)
          (tmp_ralph [Directory "worker-TASK-001-1700000000" running_dir]))
     = [(RUNNING, Some 12345)]
  /\ map status
       (scan_workers (mock false false)
          (tmp_ralph [Directory "worker-TASK-001-1700000000" failed_dir]))
     = [FAILED]
  /\ map pr_url
       (scan_workers (mock false false)
          (tmp_ralph [Directory "worker-TASK-001-1700000000" pr_dir]))
     = [Some "https://github.com/example/pr/123"]
  /\ map timestamp (scan_workers (mock false false) (tmp_ralph three_workers))
     = [1700000003; 1700000002; 1700000001].
Proof. repeat split. Qed.

(** ** The completion marker *)

(** C2. [get_prd_status] is [failed] as soon as one line carries the failed
    token, whatever the other lines are; it is [complete] when no line
    carries the failed token and none is unmarked, which includes a file
    without any checklist line; it is [incomplete] when no line carries the
    failed token and at least one is unmarked, and when the file does not
    exist. *)
Theorem get_prd_status_verdict :
  forall prd : option string,
    ((exists content, prd = Some content /\ failed_lines content <> []) ->
     get_prd_status prd = "failed")
    /\ ((exists content, prd = Some content /\ failed_lines content = []
                         /\ unmarked_lines content = []) ->
        get_prd_status prd = "complete")
    /\ ((prd = None
         \/ exists content, prd = Some content /\ failed_lines content = []
                            /\ unmarked_lines content <> []) ->
        get_prd_status prd = "incomplete").
Proof.
  intros prd. unfold get_prd_status, failed_lines, unmarked_lines.
  split; [|split].
  - intros [content [-> Hf]]. apply existsb_filter in Hf. now rewrite Hf.
  - intros [content [-> [Hf Hu]]].
    apply existsb_filter_false in Hf, Hu. now rewrite Hf, Hu.
  - intros [->|[content [-> [Hf Hu]]]]; [reflexivity|].
    apply existsb_filter_false in Hf. apply existsb_filter in Hu.
    now rewrite Hf, Hu.
Qed.

Lemma get_prd_status_verdict_witness :
  get_prd_status (Some mixed_prd) = "failed"
  /\ get_prd_status (Some "") = "complete"
  /\ get_prd_status (Some "- [ ] Not done") = "incomplete".
Proof.
  split; [|split].
  - apply (proj1 (get_prd_status_verdict (Some mixed_prd))).
    exists mixed_prd. split; [reflexivity | discriminate].
  - apply (proj1 (proj2 (get_prd_status_verdict (Some "")))).
    exists ""%string. repeat split.
  - apply (proj2 (proj2 (get_prd_status_verdict (Some "- [ ] Not done")))).
    right. exists "- [ ] Not done"%string.
    split; [reflexivity|]. split; [reflexivity | discriminate].
Defined.

(** ** Status resolution *)

(** C1. The worker the scanner builds for a directory is RUNNING exactly
    when the directory holds a liveness marker with a PID, the process of
    that PID is alive and it is verified to be a worker. When the marker's
    process fails either test (and when there is no marker), the status is
    the one of the checklist verdict: FAILED for [failed], COMPLETED for
    [complete], STOPPED otherwise. *)
Theorem status_running_iff_alive_and_verified :
  forall (probes : Probes) (root name : string) (d : WorkerDir) (w : Worker),
    scan_entry probes root (Directory name d) = Some w ->
    (status w = RUNNING <->
     exists p, agent_pid d = Some p
               /\ is_process_running probes p = true
               /\ is_worker_process probes p = true)
    /\ ((forall p, agent_pid d = Some p ->
                   is_process_running probes p = false
                   \/ is_worker_process probes p = false) ->
        status_of_verdict (get_prd_status (prd_md d)) (status w)).
Proof.
  intros probes root name d w Hw.
  apply scan_entry_inv in Hw as [n [d' [task [ts [[= <- <-] [_ ->]]]]]].
  unfold resolve_worker, resolve_status, status_of_verdict; simpl.
  set (verdict := get_prd_status (prd_md d)).
  assert (Hv : status_of_verdict verdict
                 (if (verdict =? "failed")%string then FAILED
                  else if (verdict =? "complete")%string then COMPLETED
                  else STOPPED)).
  { unfold status_of_verdict.
    destruct (String.eqb_spec verdict "failed") as [->|Hnf];
      [repeat split; congruence|].
    destruct (String.eqb_spec verdict "complete") as [->|Hnc];
      repeat split; congruence. }
  assert (Hn : (if (verdict =? "failed")%string then FAILED
                else if (verdict =? "complete")%string then COMPLETED
                else STOPPED) <> RUNNING).
  { destruct (verdict =? "failed")%string; [discriminate|].
    destruct (verdict =? "complete")%string; discriminate. }
  destruct (agent_pid d) as [p|].
  - destruct (is_process_running probes p) eqn:Hr;
      destruct (is_worker_process probes p) eqn:Hk; simpl; split;
      try (split; [intros Hs; now elim Hn
                  | intros [q [[= <-] [H1 H2]]]; congruence]);
      try (intros _; exact Hv).
    + split; [intros _; exists p; auto | reflexivity].
    + intros Hfall. destruct (Hfall p eq_refl) as [Hx|Hx]; congruence.
  - split; [|intros _; exact Hv].
    split; [intros Hs; now elim Hn | intros [q [[=] _]]].
Qed.

Lemma status_running_iff_alive_and_verified_witness :
  status (resolve_worker (mock true false) "/tmp/.ralph"
            "worker-TASK-001-1700000000" "TASK-001" "1700000000" running_dir)
  = STOPPED.
Proof.
  assert (Hw : scan_entry (mock true false) "/tmp/.ralph"
                 (Directory "worker-TASK-001-1700000000" running_dir)
               = Some (resolve_worker (mock true false) "/tmp/.ralph"
                         "worker-TASK-001-1700000000" "TASK-001" "1700000000"
                         running_dir)) by reflexivity.
  destruct (status_running_iff_alive_and_verified _ _ _ _ _ Hw) as [_ Hfall].
  apply Hfall.
  - intros p _. right. reflexivity.
  - discriminate.
  - discriminate.
Defined.

(** ** Discovery *)

Lemma is_worker_dir_worker_name (e : Entry) :
  is_worker_dir e = true <->
  exists name d task ts, e = Directory name d /\ worker_name name task ts.
Proof.
  split.
  - destruct e as [n|n d]; simpl; [discriminate|].
    destruct (WORKER_PATTERN n) as [[task ts]|] eqn:Hp; [|discriminate].
    intros _. exists n, d, task, ts.
    apply WORKER_PATTERN_worker_name in Hp. auto.
  - intros [name [d [task [ts [-> Hn]]]]]. simpl.
    apply WORKER_PATTERN_worker_name in Hn. now rewrite Hn.
Qed.




(** ** The scanner over any pattern the tests admit *)

Lemma scan_workers_with_WORKER_PATTERN (probes : Probes) (root : RalphDir) :
  scan_workers_with WORKER_PATTERN probes root = scan_workers probes root.
Proof. reflexivity. Qed.







(** The wording, run as a pattern on the tables of the tests, fails them. *)
Example worded_pattern_fails_the_tests :
  test_worker_pattern worded_pattern = false
  /\ map worded_pattern invalid_names
     = [Some ("TASK", "001"); None; None; Some ("TASK-12345", "1700000000")]
  /\ worded_pattern "worker-ABCDEFGHIJ-9999-1111111111" = None.
Proof. repeat split. Qed.



(** C4. The workers come back with their timestamps in descending order,
    and the timestamp of each is the one its directory name ends with. *)
Theorem scan_workers_newest_first :
  forall (probes : Probes) (root : RalphDir),
    StronglySorted (fun a b => timestamp b <= timestamp a)
      (scan_workers probes root)
    /\ (forall w, In w (scan_workers probes root) ->
         exists ts, WORKER_PATTERN (id w) = Some (task_id w, ts)
                    /\ timestamp w = int_of_str ts).
Proof.
  intros probes root. split.
  - unfold scan_workers. destruct (workers_dir root) as [entries|];
      [|constructor].
    eapply StronglySorted_impl; [|apply sort_desc_Z_descending].
    intros a b Hab. now apply Z.ltb_ge.
  - intros w Hw. destruct (workers_dir root) as [entries|] eqn:Hd.
    + destruct (proj1 (scan_workers_In probes root entries w Hd) Hw)
        as [name [d [task [ts [_ [Hn Heq]]]]]].
      exists ts. rewrite Heq. simpl. split; [|reflexivity].
      now apply WORKER_PATTERN_worker_name.
    + unfold scan_workers in Hw. rewrite Hd in Hw. destruct Hw.
Qed.

Lemma scan_workers_newest_first_witness :
  StronglySorted (fun a b => timestamp b <= timestamp a)
    (scan_workers (mock false false) (tmp_ralph three_workers))
  /\ exists ts,
       WORKER_PATTERN "worker-TASK-003-1700000003" = Some ("TASK-003", ts)
       /\ 1700000003 = int_of_str ts.
Proof.
  destruct (scan_workers_newest_first (mock false false)
              (tmp_ralph three_workers)) as [Hsorted Hname].
  split; [exact Hsorted|].
  apply (Hname (resolve_worker (mock false false) "/tmp/.ralph"
                  "worker-TASK-003-1700000003" "TASK-003" "1700000003"
                  done_dir)).
  vm_compute. left. reflexivity.
Defined.

End WorkerScannerFacts.

(* ================================================================== *)
(** * The fleet aggregator and the panel (metrics_panel.py) *)
(* ================================================================== *)

Module MetricsPanelFacts.

Import WorkerScanner MetricsPanel PyFacts Fixtures.

Local Open Scope list_scope.

Section Loop.
Context {F : Type} `{PyFloat F}.
Variable provider : LogProvider F.
Variable dir : string.

(** One turn of the loop, in terms of what the provider delivers. *)
Lemma process_worker_log (m : AggregateMetrics F) (w : Worker) :
  process_worker provider dir m w =
  (x <- worker_log provider dir w ;;
   Return (store_summary w (snd x)
             (fold_left add_usage (fst x)
                (add_summary (snd x) (count_status (status w) m))))).
Proof.
  unfold process_worker, worker_log.
  destruct (parse_iteration_logs provider _) as [c|e]; simpl; [|reflexivity].
  destruct (get_conversation_summary provider c) as [s|e]; reflexivity.
Qed.

Lemma add_usage_rows (rs : list Result) (m : AggregateMetrics F) :
  worker_summaries (fold_left add_usage rs m) = worker_summaries m.
Proof.
  revert m; induction rs as [|r rs IH]; intros m; simpl; [reflexivity|].
  now rewrite IH.
Qed.

Lemma store_summary_rows (w : Worker) (s : Summary F) (m : AggregateMetrics F) :
  worker_summaries (store_summary w s m) =
  worker_summaries m ++ (if has_activity s then [summary_row w s] else []).
Proof.
  unfold store_summary. destruct (has_activity s); simpl;
    [reflexivity | now rewrite app_nil_r].
Qed.

(** The rows the loop leaves behind. *)
Lemma for_workers_rows (ws : list Worker) (m0 m : AggregateMetrics F) :
  for_workers provider dir ws m0 = Return m ->
  worker_summaries m = worker_summaries m0 ++ active_rows provider dir ws.
Proof.
  revert m0; induction ws as [|w ws IH]; intros m0; simpl.
  - intros [= <-]. now rewrite app_nil_r.
  - rewrite process_worker_log.
    destruct (worker_log provider dir w) as [[rs s]|e]; simpl; [|discriminate].
    intros Hrest. rewrite (IH _ Hrest), store_summary_rows, add_usage_rows.
    simpl. now rewrite <- List.app_assoc.
Qed.

(** The loop comes to its end exactly when the provider delivers for every
    worker; otherwise what the provider raised comes out of it. *)
Lemma for_workers_returns (ws : list Worker) (m0 : AggregateMetrics F) :
  (forall w, In w ws -> exists x, worker_log provider dir w = Return x) ->
  exists m, for_workers provider dir ws m0 = Return m.
Proof.
  revert m0; induction ws as [|w ws IH]; intros m0 Hall; simpl.
  - now exists m0.
  - rewrite process_worker_log.
    destruct (Hall w (or_introl eq_refl)) as [x ->]; simpl.
    apply IH. intros w' Hw'. apply Hall. now right.
Qed.

Lemma for_workers_raises (ws : list Worker) (m0 : AggregateMetrics F) :
  (exists w e, In w ws /\ worker_log provider dir w = Raise e) ->
  exists e, for_workers provider dir ws m0 = Raise e.
Proof.
  revert m0; induction ws as [|w ws IH]; intros m0 [w' [e [Hin He]]]; simpl.
  - destruct Hin.
  - rewrite process_worker_log.
    destruct (worker_log provider dir w) as [x|e'] eqn:Hw; simpl.
    + destruct Hin as [->|Hin]; [congruence|].
      apply IH. now exists w', e.
    + now exists e'.
Qed.

Lemma for_workers_app (ws1 ws2 : list Worker) (m0 : AggregateMetrics F) :
  for_workers provider dir (ws1 ++ ws2) m0 =
  (m1 <- for_workers provider dir ws1 m0 ;; for_workers provider dir ws2 m1).
Proof.
  revert m0; induction ws1 as [|w ws1 IH]; intros m0; simpl; [reflexivity|].
  destruct (process_worker provider dir m0 w) as [m1|e]; simpl;
    [apply IH | reflexivity].
Qed.

(** The running totals and the rows after a turn depend on the running
    totals and the rows before it, not on the worker counts. *)
Lemma add_usage_totals (rs : list Result) (m m' : AggregateMetrics F) :
  running_totals m = running_totals m' ->
  running_totals (fold_left add_usage rs m)
  = running_totals (fold_left add_usage rs m').
Proof.
  revert m m'; induction rs as [|r rs IH]; intros m m' Hm; simpl;
    [exact Hm|].
  apply IH. unfold running_totals in *; simpl. congruence.
Qed.

Lemma process_worker_totals (w : Worker) (m m' : AggregateMetrics F) :
  running_totals m = running_totals m' ->
  outcome_map running_totals (process_worker provider dir m w)
  = outcome_map running_totals (process_worker provider dir m' w).
Proof.
  intros Hm. rewrite !process_worker_log.
  destruct (worker_log provider dir w) as [[rs s]|e]; simpl; [|reflexivity].
  f_equal.
  assert (Hu : running_totals
                 (fold_left add_usage rs
                    (add_summary s (count_status (status w) m)))
               = running_totals
                   (fold_left add_usage rs
                      (add_summary s (count_status (status w) m')))).
  { apply add_usage_totals. unfold running_totals in *; simpl. congruence. }
  unfold store_summary. destruct (has_activity s); [|exact Hu].
  unfold running_totals in *; simpl. congruence.
Qed.

Lemma for_workers_totals (ws : list Worker) (m m' : AggregateMetrics F) :
  running_totals m = running_totals m' ->
  outcome_map running_totals (for_workers provider dir ws m)
  = outcome_map running_totals (for_workers provider dir ws m').
Proof.
  revert m m'; induction ws as [|w ws IH]; intros m m' Hm; simpl;
    [now rewrite Hm|].
  pose proof (process_worker_totals w m m' Hm) as Hw.
  destruct (process_worker provider dir m w) as [m1|e];
    destruct (process_worker provider dir m' w) as [m1'|e'];
    simpl in *; try discriminate.
  - apply IH. congruence.
  - exact Hw.
Qed.
End Loop.

Section Aggregator.
Context {F : Type} `{PyFloat F}.

Lemma sorted_totals (m m' : AggregateMetrics F) :
  running_totals m = running_totals m' ->
  running_totals
    (set_worker_summaries
       (PySort.sort_desc flt row_cost_usd (worker_summaries m)) m)
  = running_totals
      (set_worker_summaries
         (PySort.sort_desc flt row_cost_usd (worker_summaries m')) m').
Proof. unfold running_totals; simpl. congruence. Qed.

Lemma aggregate_totals (scan : string -> list Worker)
    (provider : LogProvider F) (dir : string) :
  outcome_map running_totals (aggregate_worker_metrics scan provider dir)
  = outcome_map
      (fun m => running_totals
                  (set_worker_summaries
                     (PySort.sort_desc flt row_cost_usd (worker_summaries m))
                     m))
      (for_workers provider dir (scan dir) empty_metrics).
Proof.
  unfold aggregate_worker_metrics.
  pose proof (for_workers_totals provider dir (scan dir)
                (set_total_workers (Z.of_nat (List.length (scan dir)))
                   empty_metrics)
                empty_metrics eq_refl) as Hm.
  destruct (for_workers provider dir (scan dir) (set_total_workers _ _))
    as [m|e];
    destruct (for_workers provider dir (scan dir) empty_metrics) as [m'|e'];
    simpl in *; try discriminate.
  - f_equal. apply sorted_totals. congruence.
  - exact Hm.
Qed.

(** The pass returns a snapshot when the provider delivers for every
    worker. *)
Lemma aggregate_returns (scan : string -> list Worker)
    (provider : LogProvider F) (dir : string) :
  (forall w, In w (scan dir) ->
             exists x, worker_log provider dir w = Return x) ->
  exists m, aggregate_worker_metrics scan provider dir = Return m.
Proof.
  intros Hall. unfold aggregate_worker_metrics.
  destruct (for_workers_returns provider dir (scan dir)
              (set_total_workers (Z.of_nat (List.length (scan dir)))
                 empty_metrics) Hall) as [m ->].
  simpl. eauto.
Qed.

(** A worker with an empty log leaves the totals and the rows as they are. *)
Lemma empty_log_turn (provider : LogProvider F) (dir : string)
    (w : Worker) (m : AggregateMetrics F) :
  fadd (total_cost_usd m) fzero = total_cost_usd m ->
  flt fzero fzero = false ->
  worker_log provider dir w = Return ([], empty_summary) ->
  exists m', process_worker provider dir m w = Return m'
             /\ running_totals m' = running_totals m.
Proof.
  intros Hadd Hirr Hw. rewrite process_worker_log, Hw. simpl.
  eexists. split; [reflexivity|].
  unfold store_summary, has_activity, empty_summary; simpl.
  rewrite Hirr. unfold running_totals; simpl.
  now rewrite Hadd, !Z.add_0_r.
Qed.
End Aggregator.

(** The log directory of one worker of three cannot be read: the aggregator
    has no handler, what the provider raises reaches the caller and there is
    no snapshot, although the two other workers have readable logs. *)
Lemma provider_failure_reaches_the_caller :
  aggregate_worker_metrics (fun _ => fleet) logs_unreadable "/tmp/.ralph"
  = Raise PermissionError
  /\ map (fun w => match worker_log logs_unreadable "/tmp/.ralph" w with
                   | Return _ => true
                   | Raise _ => false
                   end) fleet
     = [true; false; true].
Proof. split; reflexivity. Qed.

Section Rows.
Context {F : Type} `{PyFloat F}.
Variable provider : LogProvider F.
Variable dir : string.

Lemma active_rows_In (ws : list Worker) (row : SummaryRow F) :
  In row (active_rows provider dir ws) <->
  exists w rs s,
    In w ws /\ worker_log provider dir w = Return (rs, s)
    /\ has_activity s = true /\ row = summary_row w s.
Proof.
  unfold active_rows. rewrite in_flat_map. split.
  - intros [w [Hw Hrow]].
    destruct (worker_log provider dir w) as [[rs s]|e] eqn:Hlog;
      [|destruct Hrow].
    destruct (has_activity s) eqn:Ha; [|destruct Hrow].
    destruct Hrow as [<-|[]]. exists w, rs, s. auto.
  - intros [w [rs [s [Hw [Hlog [Ha ->]]]]]].
    exists w. split; [exact Hw|]. rewrite Hlog, Ha. now left.
Qed.

Lemma active_rows_cost (ws : list Worker) (P : F -> Prop) :
  (forall w rs s, In w ws -> worker_log provider dir w = Return (rs, s) ->
                  P (cost_usd s)) ->
  Forall (fun row => P (row_cost_usd row)) (active_rows provider dir ws).
Proof.
  intros HP. apply Forall_forall. intros row Hrow.
  apply active_rows_In in Hrow as [w [rs [s [Hw [Hlog [_ ->]]]]]].
  simpl. eapply HP; eauto.
Qed.
End Rows.

(** A worker whose cost is not zero and yet gets no row: TASK-002 was
    refunded 5 dollars and took no turn; the test of line 76 is [> 0], so
    the snapshot has the rows of the two other workers only, while its total
    cost counts the refund. And a list of rows that is not in descending
    order of cost: with a NaN among the costs, the sort leaves 1 dollar
    before 2 dollars. *)
Lemma negative_cost_gets_no_row :
  worker_log logs_refund "/tmp/.ralph" (nth 1 fleet (worker_of "" "" 0 STOPPED))
  = Return ([], spent 0 (-5))
  /\ cost_usd (spent 0 (-5)) <> 0
  /\ outcome_map
       (fun m => (map row_task_id (worker_summaries m), total_cost_usd m))
       (aggregate_worker_metrics (fun _ => fleet) logs_refund "/tmp/.ralph")
     = Return (["TASK-001"; "TASK-003"]%string, 4)
  /\ outcome_map (fun m => map row_cost_usd (worker_summaries m))
       (aggregate_worker_metrics (fun _ => fleet) logs_nan "/tmp/.ralph")
     = Return [whole 1; nan; whole 2]
  /\ flt (whole 1) (whole 2) = true.
Proof.
  split; [reflexivity|]. split; [discriminate|].
  split; [reflexivity|]. split; reflexivity.
Qed.

(** C8, as amended. The rows of the snapshot are, one for one, the rows of
    the workers whose turn count or cost is greater than zero, each row made
    of the worker's id, task and status and of the summary's turns, tool
    calls, cost, duration and tokens. When the costs of these workers are
    numbers, that is, values on which [<] is asymmetric and [>=]
    transitive, as floats other than NaN are, no row costs less than a row
    behind it. *)
Theorem worker_summaries_by_cost :
  forall (F : Type) (float : PyFloat F)
         (scan : string -> list Worker) (provider : LogProvider F)
         (dir : string) (m : AggregateMetrics F),
    aggregate_worker_metrics scan provider dir = Return m ->
    Permutation (worker_summaries m) (active_rows provider dir (scan dir))
    /\ (forall row,
          In row (worker_summaries m) <->
          exists w rs s,
            In w (scan dir) /\ worker_log provider dir w = Return (rs, s)
            /\ (0 < turns s \/ flt fzero (cost_usd s) = true)
            /\ row = {| row_worker_id := id w;
                        row_task_id := task_id w;
                        row_status := status_value (status w);
                        row_turns := turns s;
                        row_tool_calls := tool_calls s;
                        row_cost_usd := cost_usd s;
                        row_duration_ms := duration_ms s;
                        row_tokens := tokens s |})
    /\ (forall numeric : F -> Prop,
          (forall a b, numeric a -> numeric b ->
                       flt a b = true -> flt b a = false) ->
          (forall a b c, numeric a -> numeric b -> numeric c ->
                         flt a b = false -> flt b c = false ->
                         flt a c = false) ->
          (forall w rs s,
              In w (scan dir) -> worker_log provider dir w = Return (rs, s) ->
              0 < turns s \/ flt fzero (cost_usd s) = true ->
              numeric (cost_usd s)) ->
          PySort.descending flt row_cost_usd (worker_summaries m)).
Proof.
  intros F float scan provider dir m Hagg.
  unfold aggregate_worker_metrics in Hagg.
  destruct (for_workers provider dir (scan dir) _) as [m0|e] eqn:Hloop;
    [|discriminate].
  apply for_workers_rows in Hloop. simpl in Hloop, Hagg.
  injection Hagg as <-. simpl. rewrite Hloop.
  assert (Hperm : Permutation
            (PySort.sort_desc flt row_cost_usd
               (active_rows provider dir (scan dir)))
            (active_rows provider dir (scan dir)))
    by (symmetry; apply sort_desc_perm).
  assert (Hact : forall s : Summary F,
            has_activity s = true
            <-> (0 < turns s \/ flt fzero (cost_usd s) = true)).
  { intros s. unfold has_activity. rewrite orb_true_iff, Z.ltb_lt. tauto. }
  split; [exact Hperm | split].
  - intros row. split.
    + intros Hrow. apply (Permutation_in _ Hperm) in Hrow.
      apply active_rows_In in Hrow as [w [rs [s [Hw [Hlog [Ha ->]]]]]].
      exists w, rs, s. repeat (split; [assumption|]).
      split; [now apply Hact | reflexivity].
    + intros [w [rs [s [Hw [Hlog [Hnz ->]]]]]].
      apply (Permutation_in _ (Permutation_sym Hperm)).
      apply active_rows_In. exists w, rs, s.
      repeat (split; [assumption|]). split; [now apply Hact | reflexivity].
  - intros numeric Hasym Htrans Hnum.
    apply (sort_desc_descending flt row_cost_usd numeric Hasym Htrans).
    apply Forall_forall. intros row Hrow.
    apply active_rows_In in Hrow as [w [rs [s [Hw [Hlog [Ha ->]]]]]].
    cbn [row_cost_usd summary_row]. apply (Hnum w rs s Hw Hlog).
    now apply Hact.
Qed.

Lemma worker_summaries_by_cost_witness :
  map row_worker_id (worker_summaries fleet_metrics)
    = ["worker-TASK-001-1700000001"; "worker-TASK-003-1700000003"]%string
  /\ PySort.descending Z.ltb row_cost_usd (worker_summaries fleet_metrics).
Proof.
  split; [reflexivity|].
  refine (proj2 (proj2 (worker_summaries_by_cost Z whole_float
                          (fun _ => fleet) logs "/tmp/.ralph" fleet_metrics _))
            (fun _ => True) _ _ _).
  - vm_compute. reflexivity.
  - intros a b _ _ Hab. cbn [flt whole_float] in *.
    apply Z.ltb_lt in Hab. apply Z.ltb_ge. lia.
  - intros a b c _ _ _ Hab Hbc. cbn [flt whole_float] in *.
    apply Z.ltb_ge in Hab, Hbc. apply Z.ltb_ge. lia.
  - intros; exact I.
Defined.

(** The running count is not part of the tuple: a worker that goes from
    RUNNING to STOPPED between two refreshes leaves the fingerprint as it
    was. *)
Example fingerprint_ignores_running_workers :
  forall (F : Type) (float : PyFloat F) (m : AggregateMetrics F),
    _compute_data_hash (count_status RUNNING m)
    = _compute_data_hash (count_status STOPPED m).
Proof. reflexivity. Qed.

Example fingerprint_of_fleet :
  _compute_data_hash fleet_metrics = "(3, 1, 1, 9.0, 14, 15)"%string.
Proof. reflexivity. Qed.

End MetricsPanelFacts.

(* ================================================================== *)
(** * More on the control facade and the probes *)
(* ================================================================== *)

Module WorkerControlMore.

Import WorkerControl PyFacts Fixtures MetricsView.

(** X1. The facade raises only what the command raised, unchanged, and only when
    that is neither a timeout nor an [OSError] of any kind. *)
Theorem stop_kill_raise_what_is_not_caught :
  forall (run : subprocess_run) (worker_id : string) (e : exception),
    (stop_worker run worker_id = Raise e <->
     run ["wiggum"; "stop"; worker_id] stop_timeout = Raise e
     /\ e <> TimeoutExpired /\ isinstance e OSError = false)
    /\ (kill_worker run worker_id = Raise e <->
        run ["wiggum"; "kill"; worker_id] kill_timeout = Raise e
        /\ e <> TimeoutExpired /\ isinstance e OSError = false).
Proof.
  intros run worker_id e.
  assert (Hfacade : forall o : outcome CompletedProcess,
    try_except (result <- o ;; Return (returncode result =? 0))
      [TimeoutExpired; FileNotFoundError; OSError] (Return false)
    = Raise e
    <-> o = Raise e /\ e <> TimeoutExpired /\ isinstance e OSError = false).
  { intros o. destruct o as [r|e']; cbv [try_except bind].
    - split; [discriminate | intros [Hr _]; discriminate].
    - split.
      + destruct e'; simpl; intros [= <-];
          (split; [reflexivity | split; [discriminate | reflexivity]]).
      + intros [[= ->] [Ht Ho]]. destruct e; cbv in Ho |- *; congruence. }
  split.
  - exact (Hfacade (run ["wiggum"; "stop"; worker_id] stop_timeout)).
  - exact (Hfacade (run ["wiggum"; "kill"; worker_id] kill_timeout)).
Qed.

Lemma stop_kill_raise_what_is_not_caught_witness :
  stop_worker (failing_run ValueError) "worker-TASK-001-1700000000"
  = Raise ValueError
  /\ kill_worker (failing_run PermissionError) "worker-TASK-001-1700000000"
     <> Raise PermissionError.
Proof.
  split.
  - apply (proj1 (stop_kill_raise_what_is_not_caught
                    (failing_run ValueError) "worker-TASK-001-1700000000"
                    ValueError)).
    split; [reflexivity | split; [discriminate | reflexivity]].
  - intros Hk.
    apply (proj2 (stop_kill_raise_what_is_not_caught
                    (failing_run PermissionError)
                    "worker-TASK-001-1700000000" PermissionError)) in Hk.
    destruct Hk as [_ [_ Hk]]. discriminate Hk.
Defined.

(** X2. The liveness probe answers [False] only when the signal check found no
    process, answers [True] only when the check went through or was refused
    for lack of permission, and lets every other exception of [os.kill]
    through as it is, a plain [OSError] included. *)
Theorem is_process_running_outcomes :
  forall (os_kill : os_kill_t) (pid : Z),
    (is_process_running os_kill pid = Return false <->
     os_kill pid 0 = Raise ProcessLookupError)
    /\ (is_process_running os_kill pid = Return true <->
        os_kill pid 0 = Return tt \/ os_kill pid 0 = Raise PermissionError)
    /\ (forall e,
          is_process_running os_kill pid = Raise e <->
          os_kill pid 0 = Raise e
          /\ e <> ProcessLookupError /\ e <> PermissionError).
Proof.
  intros os_kill pid. unfold is_process_running.
  destruct (os_kill pid 0) as [[]|e'].
  - split; [|split].
    + split; discriminate.
    + split; [now left | reflexivity].
    + intros e. split; [discriminate | intros [Hr _]; discriminate].
  - split; [|split].
    + destruct e'; simpl; split; intros Hr; congruence.
    + destruct e'; simpl; split;
        first [ intros [Hr|Hr]; congruence
              | intros Hr; congruence
              | intros _; now right ].
    + intros e. destruct e'; simpl; split;
        first [ discriminate
              | intros [= <-]; split; [reflexivity | split; discriminate]
              | intros [[= <-] [H1 H2]]; congruence ].
Qed.

Lemma is_process_running_outcomes_witness :
  is_process_running (fun _ _ => Raise OSError) 4242 = Raise OSError.
Proof.
  apply (proj2 (proj2 (is_process_running_outcomes
                         (fun _ _ => Raise OSError) 4242)) OSError).
  split; [reflexivity | split; discriminate].
Defined.

(** X3. [verify_worker_process] raises only what the existence test or the read
    raised, and never an [OSError]; and when the proc entry does not exist
    the answer is [False] whatever a read would have given. *)
Theorem verify_worker_process_raises :
  forall (fs : filesystem) (pid : Z),
    (forall e,
        verify_worker_process fs pid = Raise e <->
        (path_exists fs (cmdline_path pid) = Raise e
         \/ (path_exists fs (cmdline_path pid) = Return true
             /\ read_text fs (cmdline_path pid) = Raise e))
        /\ isinstance e OSError = false)
    /\ (path_exists fs (cmdline_path pid) = Return false ->
        verify_worker_process fs pid = Return false).
Proof.
  intros fs pid. unfold verify_worker_process. split.
  - intros e.
    destruct (path_exists fs (cmdline_path pid)) as [[|]|e1];
      cbv [try_except bind].
    + destruct (read_text fs (cmdline_path pid)) as [c|e2].
      * split; [discriminate|].
        intros [[Hx|[_ Hx]] _]; discriminate.
      * split.
        -- destruct e2; simpl; intros [= <-]; (split; [auto | reflexivity]).
        -- intros [[Hx|[_ [= ->]]] Ho]; [discriminate|].
           destruct e; cbv in Ho |- *; congruence.
    + split; [discriminate|].
      intros [[Hx|[Hx _]] _]; discriminate.
    + split.
      * destruct e1; simpl; intros [= <-]; (split; [auto | reflexivity]).
      * intros [[[= ->]|[Hx _]] Ho]; [|discriminate].
        destruct e; cbv in Ho |- *; congruence.
  - intros ->. reflexivity.
Qed.

Lemma verify_worker_process_raises_witness :
  verify_worker_process
    {| path_exists := fun _ => Return false;
       read_text := fun _ => Raise UnicodeDecodeError |} 4242
  = Return false.
Proof.
  apply (proj2 (verify_worker_process_raises
                  {| path_exists := fun _ => Return false;
                     read_text := fun _ => Raise UnicodeDecodeError |} 4242)).
  reflexivity.
Defined.

(** ** [str] on ints *)

Lemma to_int_not_nil (n : Z) :
  Z.to_int n <> Decimal.Pos Decimal.Nil
  /\ Z.to_int n <> Decimal.Neg Decimal.Nil.
Proof.
  destruct n as [|p|p]; simpl; split; try discriminate;
    intros [= Hp]; now apply (DecimalPos.Unsigned.to_uint_nonnil p).
Qed.

Lemma str_int_inj (a b : Z) : str_int a = str_int b -> a = b.
Proof.
  unfold str_int. intros Hs.
  apply DecimalZ.to_int_inj.
  destruct (to_int_not_nil a) as [Ha1 Ha2].
  destruct (to_int_not_nil b) as [Hb1 Hb2].
  pose proof (NilZero.isi _ Ha1 Ha2) as Ha.
  pose proof (NilZero.isi _ Hb1 Hb2) as Hb.
  rewrite Hs in Ha. congruence.
Qed.

Lemma append_inj_l (a b c : string) :
  (a ++ b)%string = (a ++ c)%string -> b = c.
Proof. induction a as [|x a IH]; simpl; [auto | intros [= Hs]; auto]. Qed.

Lemma length_append (a b : string) :
  String.length (a ++ b) = (String.length a + String.length b)%nat.
Proof. induction a as [|x a IH]; simpl; [reflexivity | now rewrite IH]. Qed.

Lemma append_inj_r (a b c : string) :
  (a ++ c)%string = (b ++ c)%string -> a = b.
Proof.
  revert b; induction a as [|x a IH]; intros [|y b]; simpl; intros Hs.
  - reflexivity.
  - apply (f_equal String.length) in Hs. simpl in Hs.
    rewrite length_append in Hs. lia.
  - apply (f_equal String.length) in Hs. simpl in Hs.
    rewrite length_append in Hs. lia.
  - injection Hs as -> Hs. now rewrite (IH b Hs).
Qed.

(** X4. Each PID has a proc entry of its own: two PIDs with the same
    [/proc/<pid>/cmdline] path are the same PID. *)
Theorem cmdline_path_inj :
  forall pid pid' : Z, cmdline_path pid = cmdline_path pid' -> pid = pid'.
Proof.
  intros pid pid'. unfold cmdline_path. intros Hp.
  apply append_inj_l in Hp. apply append_inj_r in Hp.
  now apply str_int_inj.
Qed.

Lemma cmdline_path_inj_witness : 4242 = 4242.
Proof. apply (cmdline_path_inj 4242 4242). reflexivity. Defined.

End WorkerControlMore.

(* ================================================================== *)
(** * More on the fleet aggregator *)
(* ================================================================== *)

Module AggregatorMore.

Import WorkerScanner MetricsPanel PyFacts Fixtures MetricsView.
Import MetricsPanelFacts.

Local Open Scope list_scope.

Section Tally.
Context {F : Type} `{PyFloat F}.
Variable provider : LogProvider F.
Variable dir : string.

(** What one turn of the loop does to each field. *)
Lemma add_usage_fields (rs : list Result) (m : AggregateMetrics F) :
  let m' := fold_left add_usage rs m in
  total_workers m' = total_workers m
  /\ running_workers m' = running_workers m
  /\ completed_workers m' = completed_workers m
  /\ failed_workers m' = failed_workers m
  /\ total_turns m' = total_turns m
  /\ total_tool_calls m' = total_tool_calls m
  /\ total_cost_usd m' = total_cost_usd m
  /\ total_duration_ms m' = total_duration_ms m
  /\ total_tokens m' = total_tokens m
  /\ input_tokens m' = input_tokens m + sum (map (fun r => input (usage r)) rs)
  /\ output_tokens m'
     = output_tokens m + sum (map (fun r => output (usage r)) rs)
  /\ cache_creation_tokens m'
     = cache_creation_tokens m
       + sum (map (fun r => cache_creation (usage r)) rs)
  /\ cache_read_tokens m'
     = cache_read_tokens m + sum (map (fun r => cache_read (usage r)) rs).
Proof.
  revert m; induction rs as [|r rs IH]; intros m; simpl.
  - repeat (split; [first [reflexivity | lia]|]). lia.
  - destruct (IH (add_usage m r))
      as (H1 & H2 & H3 & H4 & H5 & H6 & H7 & H8 & H9 & H10 & H11 & H12 & H13).
    simpl in *.
    repeat (split; [first [assumption | lia]|]). lia.
Qed.

Lemma store_summary_fields (w : Worker) (s : Summary F)
    (m : AggregateMetrics F) :
  let m' := store_summary w s m in
  total_workers m' = total_workers m
  /\ running_workers m' = running_workers m
  /\ completed_workers m' = completed_workers m
  /\ failed_workers m' = failed_workers m
  /\ total_turns m' = total_turns m
  /\ total_tool_calls m' = total_tool_calls m
  /\ total_cost_usd m' = total_cost_usd m
  /\ total_duration_ms m' = total_duration_ms m
  /\ total_tokens m' = total_tokens m
  /\ input_tokens m' = input_tokens m
  /\ output_tokens m' = output_tokens m
  /\ cache_creation_tokens m' = cache_creation_tokens m
  /\ cache_read_tokens m' = cache_read_tokens m.
Proof.
  unfold store_summary. destruct (has_activity s); simpl; repeat split.
Qed.

Lemma sum_app (l1 l2 : list Z) : sum (l1 ++ l2) = sum l1 + sum l2.
Proof. induction l1 as [|z l1 IH]; simpl; lia. Qed.

Lemma count_of_cons (st : WorkerStatus) (w : Worker) (ws : list Worker) :
  count_of st (w :: ws) = one (WorkerStatus_eqb (status w) st) + count_of st ws.
Proof.
  unfold count_of, one. cbn [filter].
  destruct (WorkerStatus_eqb (status w) st); [|lia].
  cbn [List.length]. rewrite Nat2Z.inj_succ. lia.
Qed.

(** The worker counts the loop leaves behind. *)
Lemma for_workers_counts (ws : list Worker) (m0 m : AggregateMetrics F) :
  for_workers provider dir ws m0 = Return m ->
  total_workers m = total_workers m0
  /\ running_workers m = running_workers m0 + count_of RUNNING ws
  /\ completed_workers m = completed_workers m0 + count_of COMPLETED ws
  /\ failed_workers m = failed_workers m0 + count_of FAILED ws.
Proof.
  revert m0; induction ws as [|w ws IH]; intros m0; simpl.
  - intros [= <-]. unfold count_of; simpl. repeat split; lia.
  - rewrite process_worker_log.
    destruct (worker_log provider dir w) as [[rs s]|e]; simpl; [|discriminate].
    intros Hrest. destruct (IH _ Hrest) as (Ht & Hr & Hc & Hf).
    rewrite !count_of_cons.
    destruct (store_summary_fields w s
                (fold_left add_usage rs
                   (add_summary s (count_status (status w) m0))))
      as (S1 & S2 & S3 & S4 & _).
    destruct (add_usage_fields rs
                (add_summary s (count_status (status w) m0)))
      as (U1 & U2 & U3 & U4 & _).
    cbv zeta in *.
    rewrite Ht, Hr, Hc, Hf, S1, S2, S3, S4, U1, U2, U3, U4. simpl.
    unfold one.
    destruct (status w); cbn [WorkerStatus_eqb]; repeat split; lia.
Qed.

(** The loop and the provider end in the same way. *)
Lemma for_workers_all_logs (ws : list Worker) (m0 : AggregateMetrics F) :
  outcome_map (fun _ => tt) (for_workers provider dir ws m0)
  = outcome_map (fun _ => tt) (all_logs provider dir ws).
Proof.
  revert m0; induction ws as [|w ws IH]; intros m0; simpl; [reflexivity|].
  rewrite process_worker_log.
  destruct (worker_log provider dir w) as [x|e]; simpl; [|reflexivity].
  rewrite IH. now destruct (all_logs provider dir ws).
Qed.

(** The running totals the loop leaves behind. *)
Lemma for_workers_sums (ws : list Worker) (m0 m : AggregateMetrics F)
    (ls : list (list Result * Summary F)) :
  for_workers provider dir ws m0 = Return m ->
  all_logs provider dir ws = Return ls ->
  total_turns m = total_turns m0 + sum (map (fun x => turns (snd x)) ls)
  /\ total_tool_calls m
     = total_tool_calls m0 + sum (map (fun x => tool_calls (snd x)) ls)
  /\ total_cost_usd m
     = fold_left fadd (map (fun x => cost_usd (snd x)) ls) (total_cost_usd m0)
  /\ total_duration_ms m
     = total_duration_ms m0 + sum (map (fun x => duration_ms (snd x)) ls)
  /\ total_tokens m = total_tokens m0 + sum (map (fun x => tokens (snd x)) ls)
  /\ input_tokens m
     = input_tokens m0
       + sum (map (fun r => input (usage r)) (List.concat (map fst ls)))
  /\ output_tokens m
     = output_tokens m0
       + sum (map (fun r => output (usage r)) (List.concat (map fst ls)))
  /\ cache_creation_tokens m
     = cache_creation_tokens m0
       + sum (map (fun r => cache_creation (usage r)) (List.concat (map fst ls)))
  /\ cache_read_tokens m
     = cache_read_tokens m0
       + sum (map (fun r => cache_read (usage r)) (List.concat (map fst ls))).
Proof.
  revert m0 ls; induction ws as [|w ws IH]; intros m0 ls; simpl.
  - intros [= <-] [= <-]. simpl.
    repeat (split; [first [reflexivity | lia]|]). lia.
  - rewrite process_worker_log.
    destruct (worker_log provider dir w) as [[rs s]|e]; simpl; [|discriminate].
    destruct (all_logs provider dir ws) as [ls'|e] eqn:Hls; simpl;
      [|discriminate].
    intros Hrest [= <-].
    destruct (IH _ ls' Hrest eq_refl)
      as (I1 & I2 & I3 & I4 & I5 & I6 & I7 & I8 & I9).
    destruct (store_summary_fields w s
                (fold_left add_usage rs
                   (add_summary s (count_status (status w) m0))))
      as (_ & _ & _ & _ & S5 & S6 & S7 & S8 & S9 & S10 & S11 & S12 & S13).
    destruct (add_usage_fields rs
                (add_summary s (count_status (status w) m0)))
      as (_ & _ & _ & _ & U5 & U6 & U7 & U8 & U9 & U10 & U11 & U12 & U13).
    cbv zeta in *.
    rewrite I1, I2, I3, I4, I5, I6, I7, I8, I9.
    rewrite S5, S6, S7, S8, S9, S10, S11, S12, S13.
    rewrite U5, U6, U7, U8, U9, U10, U11, U12, U13.
    simpl. rewrite !map_app, !sum_app.
    repeat (split; [first [reflexivity | lia]|]). lia.
Qed.

Lemma count_of_partition (ws : list Worker) :
  count_of RUNNING ws + count_of COMPLETED ws + count_of FAILED ws
  + count_of STOPPED ws = Z.of_nat (List.length ws).
Proof.
  induction ws as [|w ws IH]; [reflexivity|].
  rewrite !count_of_cons. simpl List.length. rewrite Nat2Z.inj_succ.
  unfold one. destruct (status w); cbn [WorkerStatus_eqb]; lia.
Qed.

Lemma active_rows_length (ws : list Worker) :
  (List.length (active_rows provider dir ws) <= List.length ws)%nat.
Proof.
  induction ws as [|w ws IH]; simpl; [lia|].
  rewrite length_app.
  destruct (worker_log provider dir w) as [[rs s]|e]; simpl; [|lia].
  destruct (has_activity s); simpl; lia.
Qed.

(** Which failure ends the loop: the one of the first worker, in the order
    of the scan, for which the provider raises. *)
Lemma for_workers_first_failure (ws : list Worker) (m0 : AggregateMetrics F)
    (e : exception) :
  for_workers provider dir ws m0 = Raise e <->
  exists before w after,
    ws = before ++ w :: after
    /\ (forall v, In v before -> exists x, worker_log provider dir v = Return x)
    /\ worker_log provider dir w = Raise e.
Proof.
  revert m0; induction ws as [|w ws IH]; intros m0; simpl.
  - split; [discriminate|].
    intros (before & v & after & Hws & _). now destruct before.
  - rewrite process_worker_log.
    destruct (worker_log provider dir w) as [x|e'] eqn:Hw; simpl.
    + rewrite IH. split.
      * intros (before & v & after & -> & Hall & Hv).
        exists (w :: before), v, after. split; [reflexivity|].
        split; [|exact Hv].
        intros u [<-|Hu]; [eauto | auto].
      * intros (before & v & after & Hws & Hall & Hv).
        destruct before as [|b before]; simpl in Hws.
        -- injection Hws as <- <-. congruence.
        -- injection Hws as <- ->. exists before, v, after.
           split; [reflexivity|]. split; [|exact Hv].
           intros u Hu. apply Hall. now right.
    + split.
      * intros [= <-]. exists [], w, ws. split; [reflexivity|].
        split; [intros v []|exact Hw].
      * intros (before & v & after & Hws & Hall & Hv).
        destruct before as [|b before]; simpl in Hws.
        -- injection Hws as <- <-. congruence.
        -- injection Hws as <- ->.
           destruct (Hall w (or_introl eq_refl)) as [x Hx]. congruence.
Qed.
End Tally.

(** The cost total the loop has reached from [0.0] is a sum from [0.0]. *)
Lemma for_workers_cost_from_zero {F : Type} `{PyFloat F}
    (provider : LogProvider F) (dir : string) (ws : list Worker)
    (m : AggregateMetrics F) :
  for_workers provider dir ws empty_metrics = Return m ->
  exists costs : list F, total_cost_usd m = sum_costs costs.
Proof.
  intros Hloop.
  pose proof (for_workers_all_logs provider dir ws empty_metrics) as Hsame.
  rewrite Hloop in Hsame.
  destruct (all_logs provider dir ws) as [ls|e] eqn:Hls; [|discriminate].
  destruct (for_workers_sums provider dir ws _ _ ls Hloop Hls)
    as (_ & _ & Hcost & _).
  exists (map (fun x => cost_usd (snd x)) ls). exact Hcost.
Qed.

(** On the floats with a negative zero and NaN, a sum from [0.0] is never
    the negative zero, so adding [0.0] to it changes nothing; adding [0.0]
    to the negative zero itself does. *)
Lemma signed_sum_not_neg_zero (costs : list signed_float)
    (acc : signed_float) :
  acc <> neg_zero -> fold_left signed_add costs acc <> neg_zero.
Proof.
  revert acc; induction costs as [|c costs IH]; intros acc Hacc; simpl;
    [exact Hacc|].
  apply IH. destruct acc, c; simpl; congruence.
Qed.

Lemma signed_sum_add_zero (costs : list signed_float) :
  fadd (sum_costs costs) fzero = sum_costs costs.
Proof.
  unfold sum_costs. cbn [fadd fzero signed_floats].
  pose proof (signed_sum_not_neg_zero costs (whole 0)) as Hnz.
  destruct (fold_left signed_add costs (whole 0)) as [| |z]; simpl.
  - reflexivity.
  - elim Hnz; [discriminate | reflexivity].
  - f_equal. lia.
Qed.

Example signed_zero_plus_zero :
  fadd neg_zero fzero = whole 0 /\ frepr neg_zero <> frepr (whole 0).
Proof. split; [reflexivity | discriminate]. Qed.

(** C5, as amended. Take floats for which [0.0 > 0.0] is false and adding
    [0.0] to a sum accumulated from [0.0] gives that sum. A worker for which
    the provider delivers an empty log (no result entries, a summary of
    zeros) adds nothing to any running total and gets no row: the totals and
    the rows of the pass are those of the pass over the fleet without it.
    The aggregator itself handles no failure of the provider: when the
    provider raises for a worker, the pass raises. *)
Theorem empty_log_adds_nothing :
  forall (F : Type) (float : PyFloat F),
    (forall costs : list F, fadd (sum_costs costs) fzero = sum_costs costs) ->
    flt fzero fzero = false ->
    forall (scan scan' : string -> list Worker) (provider : LogProvider F)
           (dir : string) (before after : list Worker) (w : Worker),
      scan dir = before ++ w :: after ->
      scan' dir = before ++ after ->
      (worker_log provider dir w = Return ([], empty_summary) ->
       outcome_map running_totals (aggregate_worker_metrics scan provider dir)
       = outcome_map running_totals
           (aggregate_worker_metrics scan' provider dir))
      /\ (forall e, worker_log provider dir w = Raise e ->
           exists e', aggregate_worker_metrics scan provider dir = Raise e').
Proof.
  intros F float Hadd Hirr scan scan' provider dir before after w Hs Hs'.
  split.
  - intros Hw. rewrite !aggregate_totals, Hs, Hs', !for_workers_app.
    destruct (for_workers provider dir before empty_metrics) as [m1|e]
      eqn:Hbefore; simpl; [|reflexivity].
    destruct (for_workers_cost_from_zero provider dir before m1 Hbefore)
      as [costs Hcosts].
    assert (Hm1 : fadd (total_cost_usd m1) fzero = total_cost_usd m1)
      by (rewrite Hcosts; apply Hadd).
    destruct (empty_log_turn provider dir w m1 Hm1 Hirr Hw) as [m2 [-> Hm2]].
    simpl.
    pose proof (for_workers_totals provider dir after m2 m1 Hm2) as Hrest.
    destruct (for_workers provider dir after m2) as [m3|e];
      destruct (for_workers provider dir after m1) as [m3'|e'];
      simpl in *; try discriminate.
    + f_equal. apply sorted_totals. congruence.
    + exact Hrest.
  - intros e He. unfold aggregate_worker_metrics.
    destruct (for_workers_raises provider dir (scan dir)
                (set_total_workers (Z.of_nat (List.length (scan dir)))
                   empty_metrics)) as [e' He'].
    + exists w, e. split; [|exact He]. rewrite Hs. apply in_elt.
    + exists e'. now rewrite He'.
Qed.

Lemma empty_log_adds_nothing_witness :
  outcome_map running_totals
    (aggregate_worker_metrics (fun _ => fleet) logs_signed "/tmp/.ralph")
  = outcome_map running_totals
      (aggregate_worker_metrics
         (fun _ => [nth 0 fleet (worker_of "" "" 0 STOPPED);
                    nth 2 fleet (worker_of "" "" 0 STOPPED)])
         logs_signed "/tmp/.ralph").
Proof.
  refine (proj1 (empty_log_adds_nothing signed_float signed_floats
                   signed_sum_add_zero _
                   (fun _ => fleet) _ logs_signed "/tmp/.ralph"
                   [nth 0 fleet (worker_of "" "" 0 STOPPED)]
                   [nth 2 fleet (worker_of "" "" 0 STOPPED)]
                   (nth 1 fleet (worker_of "" "" 0 STOPPED)) _ _) _).
  - reflexivity.
  - reflexivity.
  - reflexivity.
  - reflexivity.
Defined.

(** X5. The worker counts of a snapshot are those of the fleet: the total is the
    number of scanned workers, the running, completed and failed counts are
    the numbers of workers with that status, what they leave of the total
    is the number of stopped workers, and there are no more rows than
    workers. *)
Theorem snapshot_counts_the_fleet :
  forall (F : Type) (float : PyFloat F) (scan : string -> list Worker)
         (provider : LogProvider F) (dir : string) (m : AggregateMetrics F),
    aggregate_worker_metrics scan provider dir = Return m ->
    total_workers m = Z.of_nat (List.length (scan dir))
    /\ running_workers m = count_of RUNNING (scan dir)
    /\ completed_workers m = count_of COMPLETED (scan dir)
    /\ failed_workers m = count_of FAILED (scan dir)
    /\ total_workers m - running_workers m - completed_workers m
       - failed_workers m = count_of STOPPED (scan dir)
    /\ Z.of_nat (List.length (worker_summaries m)) <= total_workers m.
Proof.
  intros F float scan provider dir m Hagg.
  unfold aggregate_worker_metrics in Hagg.
  destruct (for_workers provider dir (scan dir) _) as [m0|e] eqn:Hloop;
    [|discriminate].
  destruct (for_workers_counts provider dir _ _ _ Hloop) as (Ht & Hr & Hc & Hf).
  pose proof (for_workers_rows provider dir _ _ _ Hloop) as Hrows.
  pose proof (count_of_partition (scan dir)) as Hpart.
  pose proof (active_rows_length provider dir (scan dir)) as Hlen.
  simpl in Hagg. injection Hagg as <-. cbn [total_workers running_workers
    completed_workers failed_workers worker_summaries set_worker_summaries].
  rewrite <- (Permutation_length (sort_desc_perm _ _ _)), Hrows.
  cbn [total_workers running_workers completed_workers failed_workers
       worker_summaries set_total_workers empty_metrics app] in *.
  rewrite Ht, Hr, Hc, Hf. repeat split; lia.
Qed.

Lemma snapshot_counts_the_fleet_witness :
  total_workers fleet_metrics = 3 /\ failed_workers fleet_metrics = 1.
Proof.
  destruct (snapshot_counts_the_fleet Z whole_float (fun _ => fleet) logs
              "/tmp/.ralph" fleet_metrics) as (Ht & _ & _ & Hf & _).
  - vm_compute. reflexivity.
  - split; [exact Ht | exact Hf].
Defined.

(** X6. The running totals of a snapshot are the sums over what the provider
    delivered: turns, tool calls, duration and tokens over the summaries,
    the four token counters over all result entries of all workers, and the
    cost added up from [0.0] in the order of the scan. *)
Theorem snapshot_totals_are_sums :
  forall (F : Type) (float : PyFloat F) (scan : string -> list Worker)
         (provider : LogProvider F) (dir : string) (m : AggregateMetrics F),
    aggregate_worker_metrics scan provider dir = Return m ->
    exists ls : list (list Result * Summary F),
      all_logs provider dir (scan dir) = Return ls
      /\ total_turns m = sum (map (fun x => turns (snd x)) ls)
      /\ total_tool_calls m = sum (map (fun x => tool_calls (snd x)) ls)
      /\ total_cost_usd m = sum_costs (map (fun x => cost_usd (snd x)) ls)
      /\ total_duration_ms m = sum (map (fun x => duration_ms (snd x)) ls)
      /\ total_tokens m = sum (map (fun x => tokens (snd x)) ls)
      /\ input_tokens m
         = sum (map (fun r => input (usage r)) (List.concat (map fst ls)))
      /\ output_tokens m
         = sum (map (fun r => output (usage r)) (List.concat (map fst ls)))
      /\ cache_creation_tokens m
         = sum (map (fun r => cache_creation (usage r))
                  (List.concat (map fst ls)))
      /\ cache_read_tokens m
         = sum (map (fun r => cache_read (usage r))
                  (List.concat (map fst ls))).
Proof.
  intros F float scan provider dir m Hagg.
  unfold aggregate_worker_metrics in Hagg.
  destruct (for_workers provider dir (scan dir) _) as [m0|e] eqn:Hloop;
    [|discriminate].
  pose proof (for_workers_all_logs provider dir (scan dir)
                (set_total_workers (Z.of_nat (List.length (scan dir)))
                   empty_metrics)) as Hsame.
  rewrite Hloop in Hsame.
  destruct (all_logs provider dir (scan dir)) as [ls|e] eqn:Hls;
    [|discriminate].
  exists ls. split; [reflexivity|].
  destruct (for_workers_sums provider dir _ _ _ ls Hloop Hls)
    as (I1 & I2 & I3 & I4 & I5 & I6 & I7 & I8 & I9).
  simpl in Hagg. injection Hagg as <-.
  cbn [total_turns total_tool_calls total_cost_usd total_duration_ms
       total_tokens input_tokens output_tokens cache_creation_tokens
       cache_read_tokens set_worker_summaries set_total_workers
       empty_metrics] in *.
  unfold sum_costs.
  repeat (split; [first [assumption | lia]|]). lia.
Qed.

Lemma snapshot_totals_are_sums_witness :
  exists ls,
    all_logs logs "/tmp/.ralph" fleet = Return ls
    /\ total_turns fleet_metrics = sum (map (fun x => turns (snd x)) ls).
Proof.
  destruct (snapshot_totals_are_sums Z whole_float (fun _ => fleet) logs
              "/tmp/.ralph" fleet_metrics) as (ls & Hls & Ht & _).
  - vm_compute. reflexivity.
  - exists ls. split; [exact Hls | exact Ht].
Defined.

(** X7. The pass raises exactly when the provider raises for some worker, and
    then it raises what the provider raised for the first such worker in
    the order of the scan; the workers behind it are not looked at. *)
Theorem aggregate_raises_first_failure :
  forall (F : Type) (float : PyFloat F) (scan : string -> list Worker)
         (provider : LogProvider F) (dir : string) (e : exception),
    aggregate_worker_metrics scan provider dir = Raise e <->
    exists before w after,
      scan dir = before ++ w :: after
      /\ (forall v, In v before ->
                    exists x, worker_log provider dir v = Return x)
      /\ worker_log provider dir w = Raise e.
Proof.
  intros F float scan provider dir e.
  rewrite <- (for_workers_first_failure provider dir (scan dir)
                (set_total_workers (Z.of_nat (List.length (scan dir)))
                   empty_metrics) e).
  unfold aggregate_worker_metrics.
  destruct (for_workers provider dir (scan dir) _) as [m|e']; simpl.
  - split; discriminate.
  - reflexivity.
Qed.

Lemma aggregate_raises_first_failure_witness :
  aggregate_worker_metrics (fun _ => fleet) logs_unreadable "/tmp/.ralph"
  = Raise PermissionError.
Proof.
  apply (proj2 (aggregate_raises_first_failure Z whole_float (fun _ => fleet)
                  logs_unreadable "/tmp/.ralph" PermissionError)).
  exists [nth 0 fleet (worker_of "" "" 0 STOPPED)],
         (nth 1 fleet (worker_of "" "" 0 STOPPED)),
         [nth 2 fleet (worker_of "" "" 0 STOPPED)].
  split; [reflexivity|]. split; [|reflexivity].
  intros v [<-|[]]. eexists. vm_compute. reflexivity.
Defined.

Section Stable.
Context {A K : Type}.
Variable lt : K -> K -> bool.
Variable key : A -> K.
Variable numeric : K -> Prop.
Hypothesis ge_trans :
  forall a b c, numeric a -> numeric b -> numeric c ->
    lt a b = false -> lt b c = false -> lt a c = false.
Variable k : K.
Hypothesis numeric_k : numeric k.

Lemma insert_desc_tied (x : A) (l : list A) :
  numeric (key x) -> Forall (fun y => numeric (key y)) l ->
  filter (tied lt key k) (PySort.insert_desc lt key x l)
  = filter (tied lt key k) (x :: l).
Proof.
  intros Hx Hl. induction Hl as [|y l Hy Hl IH]; [reflexivity|].
  cbn [PySort.insert_desc].
  destruct (lt (key x) (key y)) eqn:Hxy; [|reflexivity].
  cbn [filter]. rewrite IH. cbn [filter].
  destruct (tied lt key k x) eqn:Tx; destruct (tied lt key k y) eqn:Ty;
    try reflexivity.
  exfalso. unfold tied in Tx, Ty.
  apply andb_true_iff in Tx as [_ Tx]. apply andb_true_iff in Ty as [Ty _].
  apply negb_true_iff in Tx, Ty.
  rewrite (ge_trans (key x) k (key y) Hx numeric_k Hy Tx Ty) in Hxy.
  discriminate Hxy.
Qed.

Lemma sort_desc_tied (l : list A) :
  Forall (fun y => numeric (key y)) l ->
  filter (tied lt key k) (PySort.sort_desc lt key l)
  = filter (tied lt key k) l.
Proof.
  induction l as [|x l IH]; intros Hl; [reflexivity|].
  inversion Hl as [|? ? Hx Hl']; subst.
  cbn [PySort.sort_desc fold_right].
  change (fold_right (PySort.insert_desc lt key) [] l)
    with (PySort.sort_desc lt key l).
  rewrite insert_desc_tied; auto.
  - cbn [filter]. now rewrite IH.
  - apply (Permutation_Forall (sort_desc_perm lt key l)); assumption.
Qed.
End Stable.

(** X8. Rows that cost the same stand in the snapshot in the order in which the
    scan listed their workers: for costs that are numbers, the rows tied
    with any given cost are the same list before and after the sort. *)
Theorem equal_cost_rows_keep_scan_order :
  forall (F : Type) (float : PyFloat F) (numeric : F -> Prop),
    (forall a b c, numeric a -> numeric b -> numeric c ->
                   flt a b = false -> flt b c = false -> flt a c = false) ->
    forall (scan : string -> list Worker) (provider : LogProvider F)
           (dir : string) (m : AggregateMetrics F) (cost : F),
      aggregate_worker_metrics scan provider dir = Return m ->
      (forall w rs s,
          In w (scan dir) -> worker_log provider dir w = Return (rs, s) ->
          numeric (cost_usd s)) ->
      numeric cost ->
      filter (tied flt row_cost_usd cost) (worker_summaries m)
      = filter (tied flt row_cost_usd cost)
          (active_rows provider dir (scan dir)).
Proof.
  intros F float numeric Htrans scan provider dir m cost Hagg Hnum Hcost.
  unfold aggregate_worker_metrics in Hagg.
  destruct (for_workers provider dir (scan dir) _) as [m0|e] eqn:Hloop;
    [|discriminate].
  apply for_workers_rows in Hloop. simpl in Hloop, Hagg.
  injection Hagg as <-. cbn [worker_summaries set_worker_summaries].
  rewrite Hloop.
  apply (sort_desc_tied flt row_cost_usd numeric Htrans cost Hcost).
  now apply active_rows_cost.
Qed.

Lemma equal_cost_rows_keep_scan_order_witness :
  map row_task_id (worker_summaries tied_metrics)
  = ["TASK-002"; "TASK-003"; "TASK-001"]%string
  /\ map row_task_id
       (filter (tied flt row_cost_usd 7) (worker_summaries tied_metrics))
     = ["TASK-003"; "TASK-001"]%string
  /\ map row_task_id (active_rows logs_tied "/tmp/.ralph" fleet)
     = ["TASK-003"; "TASK-002"; "TASK-001"]%string.
Proof.
  split; [reflexivity|]. split; [|reflexivity].
  rewrite (equal_cost_rows_keep_scan_order Z whole_float (fun _ => True)
             (fun a b c _ _ _ Hab Hbc =>
                proj2 (Z.ltb_ge a c)
                  (Z.le_trans _ _ _ (proj1 (Z.ltb_ge b c) Hbc)
                     (proj1 (Z.ltb_ge a b) Hab)))
             (fun _ => fleet) logs_tied "/tmp/.ralph" tied_metrics 7).
  - reflexivity.
  - vm_compute. reflexivity.
  - intros; exact I.
  - exact I.
Defined.

End AggregatorMore.

(* ================================================================== *)
(** * More on the panel: the fingerprint *)
(* ================================================================== *)

Module PanelMore.

Import WorkerScanner MetricsPanel PyFacts Fixtures MetricsView.
Import WorkerControlMore.

Local Open Scope list_scope.


(** ** The fingerprint tells the six values apart *)

Lemma all_chars_app (p : ascii -> bool) (a b : string) :
  all_chars p (a ++ b) = all_chars p a && all_chars p b.
Proof.
  induction a as [|c a IH]; simpl; [reflexivity|].
  now rewrite IH, andb_assoc.
Qed.

Lemma uint_comma_free (d : Decimal.uint) :
  comma_free (NilEmpty.string_of_uint d).
Proof. unfold comma_free. induction d; simpl; auto. Qed.

Lemma str_int_comma_free (n : Z) : comma_free (str_int n).
Proof.
  unfold str_int, NilZero.string_of_int, NilZero.string_of_uint.
  destruct (Z.to_int n) as [d|d]; destruct d;
    first [ reflexivity
          | apply (uint_comma_free (_ d))
          | unfold comma_free; cbn [all_chars]; apply (uint_comma_free (_ d)) ].
Qed.

(** A text cut at its first [", "]. *)
Lemma cut_at_comma (a a' r r' : string) :
  comma_free a -> comma_free a' ->
  (a ++ String "," (String " " r))%string
  = (a' ++ String "," (String " " r'))%string ->
  a = a' /\ r = r'.
Proof.
  unfold comma_free.
  revert a'; induction a as [|c a IH]; intros [|c' a']; simpl; intros Ha Ha' Hs.
  - injection Hs as Hs. auto.
  - injection Hs as <- _. discriminate Ha'.
  - injection Hs as -> _. discriminate Ha.
  - injection Hs as <- Hs.
    apply andb_true_iff in Ha as [_ Ha]. apply andb_true_iff in Ha' as [_ Ha'].
    destruct (IH a' Ha Ha' Hs) as [-> ->]. auto.
Qed.


(** X12. When the [repr] of floats holds no comma and tells floats apart, two
    snapshots with the same fingerprint have the same worker total, the
    same completed and failed counts and the same summed cost, turns and
    tool calls: no change of one of these six is ever skipped. *)
Theorem fingerprint_tells_apart :
  forall (F : Type) (float : PyFloat F),
    (forall x : F, comma_free (frepr x)) ->
    (forall x y : F, frepr x = frepr y -> x = y) ->
    forall m1 m2 : AggregateMetrics F,
      _compute_data_hash m1 = _compute_data_hash m2 ->
      total_workers m1 = total_workers m2
      /\ completed_workers m1 = completed_workers m2
      /\ failed_workers m1 = failed_workers m2
      /\ total_cost_usd m1 = total_cost_usd m2
      /\ total_turns m1 = total_turns m2
      /\ total_tool_calls m1 = total_tool_calls m2.
Proof.
  intros F float Hfree Hinj m1 m2. unfold _compute_data_hash.
  cbn [join]. intros Hh.
  repeat (rewrite !WorkerScannerFacts.app_assoc in Hh;
          cbn [String.append] in Hh).
  injection Hh as Hh.
  apply cut_at_comma in Hh as [H1 Hh]; try apply str_int_comma_free.
  apply cut_at_comma in Hh as [H2 Hh]; try apply str_int_comma_free.
  apply cut_at_comma in Hh as [H3 Hh]; try apply str_int_comma_free.
  apply cut_at_comma in Hh as [H4 Hh]; try apply Hfree.
  apply cut_at_comma in Hh as [H5 Hh]; try apply str_int_comma_free.
  apply append_inj_r in Hh.
  apply str_int_inj in H1, H2, H3, H5, Hh. apply Hinj in H4.
  repeat (split; [assumption|]). assumption.
Qed.

Lemma fingerprint_tells_apart_witness :
  total_cost_usd (set_worker_summaries [] fleet_metrics) = 9.
Proof.
  destruct (fingerprint_tells_apart Z whole_float) with
    (m1 := set_worker_summaries [] fleet_metrics) (m2 := fleet_metrics)
    as (_ & _ & _ & Hc & _).
  - intros x. unfold comma_free. cbn [frepr whole_float].
    rewrite all_chars_app. rewrite (str_int_comma_free x). reflexivity.
  - intros x y. cbn [frepr whole_float]. intros Hxy.
    apply append_inj_r in Hxy. now apply str_int_inj.
  - reflexivity.
  - exact Hc.
Defined.

End PanelMore.

(* ================================================================== *)
(** * What the panel shows *)
(* ================================================================== *)

Module MetricsViewFacts.

Import WorkerScanner MetricsPanel PyFacts Fixtures MetricsView.
Import WorkerControlMore PanelMore.

Local Open Scope list_scope.

(** X13. [format_duration] shows whole seconds below a minute (negative
    durations included), minutes and seconds that add up to the whole
    seconds below an hour, and from an hour on hours and minutes that fall
    short of the whole seconds by less than a minute; the whole seconds
    fall short of the milliseconds by less than a second. *)
Theorem format_duration_shows :
  forall ms : Z,
    let seconds := ms / 1000 in
    (seconds < 60 -> format_duration ms = (str_int seconds ++ "s")%string)
    /\ (60 <= seconds < 3600 ->
        exists m s,
          format_duration ms
          = (str_int m ++ "m " ++ str_int s ++ "s")%string
          /\ 1 <= m < 60 /\ 0 <= s < 60 /\ 60 * m + s = seconds)
    /\ (3600 <= seconds ->
        exists h m,
          format_duration ms = (str_int h ++ "h " ++ str_int m ++ "m")%string
          /\ 1 <= h /\ 0 <= m < 60
          /\ 0 <= seconds - (3600 * h + 60 * m) < 60)
    /\ 0 <= ms - 1000 * seconds < 1000.
Proof.
  intros ms seconds. unfold format_duration. fold seconds.
  split; [|split; [|split]].
  - intros Hs.
    destruct (Z.leb_spec 3600 seconds); [lia|].
    destruct (Z.leb_spec 60 seconds); [lia|]. reflexivity.
  - intros Hs.
    destruct (Z.leb_spec 3600 seconds); [lia|].
    destruct (Z.leb_spec 60 seconds); [|lia].
    exists (seconds / 60), (seconds mod 60). split; [reflexivity|].
    pose proof (Z.div_mod seconds 60 ltac:(lia)).
    pose proof (Z.mod_pos_bound seconds 60 ltac:(lia)). lia.
  - intros Hs.
    destruct (Z.leb_spec 3600 seconds); [|lia].
    exists (seconds / 3600), (seconds mod 3600 / 60). split; [reflexivity|].
    pose proof (Z.div_mod seconds 3600 ltac:(lia)).
    pose proof (Z.mod_pos_bound seconds 3600 ltac:(lia)).
    pose proof (Z.div_mod (seconds mod 3600) 60 ltac:(lia)).
    pose proof (Z.mod_pos_bound (seconds mod 3600) 60 ltac:(lia)). lia.
  - subst seconds.
    pose proof (Z.div_mod ms 1000 ltac:(lia)).
    pose proof (Z.mod_pos_bound ms 1000 ltac:(lia)). lia.
Qed.

Lemma format_duration_shows_witness :
  exists h m,
    format_duration 7384321 = (str_int h ++ "h " ++ str_int m ++ "m")%string
    /\ 1 <= h /\ 0 <= m < 60 /\ 0 <= 7384 - (3600 * h + 60 * m) < 60.
Proof.
  apply (proj1 (proj2 (proj2 (format_duration_shows 7384321)))).
  vm_compute. discriminate.
Defined.

(** ** Cards *)

Lemma lines_from_one_line (cur a rest : string) :
  one_line a ->
  lines_from cur (a ++ rest) = lines_from (cur ++ a) rest.
Proof.
  unfold one_line. revert cur; induction a as [|c a IH]; intros cur Ha.
  - simpl. now rewrite WorkerScannerFacts.app_empty_r.
  - cbn [all_chars] in Ha. apply andb_true_iff in Ha as [Hc Ha].
    cbn [String.append lines_from]. unfold is_LF in Hc.
    apply negb_true_iff in Hc. rewrite Hc, (IH _ Ha).
    now rewrite WorkerScannerFacts.app_assoc.
Qed.

Lemma lines_one_line (a : string) : one_line a -> lines a = [a].
Proof.
  intros Ha. unfold lines.
  rewrite <- (WorkerScannerFacts.app_empty_r a) at 1.
  now rewrite (lines_from_one_line "" a "" Ha).
Qed.

Lemma lines_cons (a rest : string) :
  one_line a -> lines (a ++ LF ++ rest) = a :: lines rest.
Proof.
  intros Ha. unfold lines. now rewrite (lines_from_one_line "" a _ Ha).
Qed.

Lemma one_line_app (a b : string) :
  one_line a -> one_line b -> one_line (a ++ b).
Proof.
  unfold one_line. intros Ha Hb. now rewrite all_chars_app, Ha, Hb.
Qed.

(** X14. A card whose title, value and secondary text hold no line feed renders
    as two lines of markup, and as three exactly when the secondary text is
    not empty: cutting the rendered text at its line feeds gives the marked
    up title, value and secondary text back. *)
Theorem render_lines :
  forall title value secondary : string,
    one_line title -> one_line value -> one_line secondary ->
    lines (render title value secondary)
    = [ ("[#7f849c]" ++ title ++ "[/]")%string;
        ("[bold #a6e3a1]" ++ value ++ "[/]")%string ]
      ++ (if (secondary =? "")%string then []
          else [("[#a6adc8]" ++ secondary ++ "[/]")%string])
    /\ List.length (lines (render title value secondary))
       = (if (secondary =? "")%string then 2%nat else 3%nat).
Proof.
  intros title value secondary Ht Hv Hs.
  assert (H1 : one_line ("[#7f849c]" ++ title ++ "[/]"))
    by (repeat apply one_line_app; auto; reflexivity).
  assert (H2 : one_line ("[bold #a6e3a1]" ++ value ++ "[/]"))
    by (repeat apply one_line_app; auto; reflexivity).
  assert (H3 : one_line ("[#a6adc8]" ++ secondary ++ "[/]"))
    by (repeat apply one_line_app; auto; reflexivity).
  unfold render. destruct (secondary =? "")%string; cbn [app join].
  - rewrite (lines_cons _ _ H1), (lines_one_line _ H2). split; reflexivity.
  - rewrite (lines_cons _ _ H1), (lines_cons _ _ H2), (lines_one_line _ H3).
    split; reflexivity.
Qed.

Lemma render_lines_witness :
  List.length (lines (render "Workers" "3" "0 running / 1 done / 1 failed"))
  = 3%nat.
Proof.
  apply (proj2 (render_lines "Workers" "3" "0 running / 1 done / 1 failed"
                  eq_refl eq_refl eq_refl)).
Defined.

(** ** What [compose] yields *)

Section Yields.
Context {F : Type} `{PyFloat F} `{PyFloatDisplay F}.

Lemma format_tokens_returns (count : Z) :
  exists text, format_tokens count = Some text.
Proof.
  unfold format_tokens, div_int.
  destruct (1000000 <=? count); [simpl; eauto|].
  destruct (1000 <=? count); simpl; eauto.
Qed.

Lemma div_int_max (a b : Z) :
  div_int a (Z.max 1 b) = Some (int_truediv a (Z.max 1 b)).
Proof.
  unfold div_int. destruct (Z.eqb_spec (Z.max 1 b) 0); [lia | reflexivity].
Qed.

Lemma div_float_max (x : F) (b : Z) :
  div_float x (Z.max 1 b) = Some (float_truediv x (Z.max 1 b)).
Proof.
  unfold div_float. destruct (Z.eqb_spec (Z.max 1 b) 0); [lia | reflexivity].
Qed.

Lemma success_rate_returns (m : AggregateMetrics F) :
  exists rate, success_rate m = Some rate.
Proof.
  unfold success_rate, div_int.
  destruct (Z.ltb_spec 0 (completed_workers m + failed_workers m));
    [|eauto].
  destruct (Z.eqb_spec (completed_workers m + failed_workers m) 0);
    [lia | eauto].
Qed.

Lemma summary_cards_returns (m : AggregateMetrics F) :
  exists rate rest,
    summary_cards m
    = Some (MetricCard "Workers" (str_int (total_workers m))
              (str_int (running_workers m) ++ " running / "
                 ++ str_int (completed_workers m) ++ " done / "
                 ++ str_int (failed_workers m) ++ " failed")%string
            :: rest)
    /\ success_rate m = Some rate /\ List.length rest = 3%nat.
Proof.
  unfold summary_cards.
  destruct (success_rate_returns m) as [rate Hr]. rewrite Hr.
  eexists rate, _. split; [reflexivity|]. split; reflexivity.
Qed.

Lemma conversation_cards_returns (m : AggregateMetrics F) :
  exists cs, conversation_cards m = Some cs /\ List.length cs = 4%nat.
Proof.
  unfold conversation_cards. rewrite !div_int_max, div_float_max.
  destruct (format_tokens_returns (total_tokens m)) as [t ->].
  eexists. split; reflexivity.
Qed.

Lemma token_cards_returns (m : AggregateMetrics F) :
  exists cs, token_cards m = Some cs /\ List.length cs = 4%nat.
Proof.
  unfold token_cards.
  destruct (format_tokens_returns (input_tokens m)) as [a ->].
  destruct (format_tokens_returns (output_tokens m)) as [b ->].
  destruct (format_tokens_returns (cache_creation_tokens m)) as [c ->].
  destruct (format_tokens_returns (cache_read_tokens m)) as [d ->].
  eexists. split; reflexivity.
Qed.

End Yields.







(** X17. The fingerprint does not cover everything the panel shows. A worker
    that is RUNNING at one refresh and STOPPED at the next leaves the
    fingerprint as it was, while the secondary text of the first card names
    the running count: what [compose] would yield for the two snapshots
    differs. *)
Theorem fingerprint_misses_the_running_count :
  forall (F : Type) (float : PyFloat F) (display : PyFloatDisplay F)
         (m : AggregateMetrics F),
    total_workers m <> 0 ->
    _compute_data_hash (count_status RUNNING m)
    = _compute_data_hash (count_status STOPPED m)
    /\ compose_yields (count_status RUNNING m)
       <> compose_yields (count_status STOPPED m).
Proof.
  intros F float display m Hnz. split; [reflexivity|].
  unfold compose_yields.
  cbn [total_workers count_status].
  destruct (Z.eqb_spec (total_workers m) 0) as [Hz|_]; [now elim Hnz|].
  destruct (summary_cards_returns (count_status RUNNING m))
    as (r1 & rest1 & -> & _ & _).
  destruct (summary_cards_returns (count_status STOPPED m))
    as (r2 & rest2 & -> & _ & _).
  destruct (conversation_cards_returns (count_status RUNNING m))
    as (c1 & -> & _).
  destruct (conversation_cards_returns (count_status STOPPED m))
    as (c2 & -> & _).
  destruct (token_cards_returns (count_status RUNNING m)) as (t1 & -> & _).
  destruct (token_cards_returns (count_status STOPPED m)) as (t2 & -> & _).
  cbn [app]. intros Heq. injection Heq as Hsec _.
  cbn [running_workers completed_workers failed_workers count_status
       WorkerStatus_eqb] in Hsec.
  apply append_inj_r in Hsec. apply str_int_inj in Hsec. lia.
Qed.

Lemma fingerprint_misses_the_running_count_witness :
  compose_yields (count_status RUNNING fleet_metrics)
  <> compose_yields (count_status STOPPED fleet_metrics).
Proof.
  apply (fingerprint_misses_the_running_count Z whole_float whole_display
           fleet_metrics).
  discriminate.
Defined.

End MetricsViewFacts.

(* ================================================================== *)
(** * The panel widget: composing and refreshing *)
(* ================================================================== *)

Module MetricsPanelWidgetFacts.

Import WorkerScanner MetricsPanel PyFacts Fixtures MetricsView.
Import MetricsPanelWidget.
Import WorkerControlMore PanelMore MetricsViewFacts.

Local Open Scope list_scope.



Section Script.
Context {F : Type} `{PyFloat F} `{PyFloatDisplay F}.

End Script.

Section Refresh.
Context {F : Type} `{PyFloat F} `{PyFloatDisplay F}.
Variable tx : Textual.

Lemma mounted_nil (self : Panel F) : mounted [] self = self.
Proof. destruct self. unfold mounted. cbn. now rewrite app_nil_r. Qed.

Lemma mounted_cons (w : Widget) (ws : list Widget) (self : Panel F) :
  mounted ws (show (mount w) self) = mounted (w :: ws) self.
Proof. unfold mounted, show. cbn. now rewrite <- List.app_assoc. Qed.

(** Running the steps only mounts, in order, widgets the steps yield; when
    the run returns, it has mounted them all. *)
Lemma mount_each_mounts (steps : list compose_step) :
  forall (open : list Container) (self : Panel F),
    exists shown rest,
      widgets_of steps = shown ++ rest
      /\ state_of (mount_each tx steps open self) = mounted shown self
      /\ (forall s, mount_each tx steps open self = returned s -> rest = []).
Proof.
  induction steps as [|[w|c|c|e] steps IH]; intros open self;
    cbn [mount_each widgets_of].
  - exists [], []. cbn [state_of]. rewrite mounted_nil. auto.
  - destruct (IH open (show (mount w) self)) as (shown & rest & Hw & Hs & Hr).
    exists (w :: shown), rest. rewrite Hw, Hs, mounted_cons. auto.
  - destruct (enter tx c) as [u|e]; [apply IH|].
    exists [], (widgets_of steps). cbn [state_of]. rewrite mounted_nil.
    split; [reflexivity|]. split; [reflexivity|]. intros s Hs. discriminate Hs.
  - destruct (leave tx c) as [u|e]; [apply IH|].
    exists [], (widgets_of steps). cbn [state_of]. rewrite mounted_nil.
    split; [reflexivity|]. split; [reflexivity|]. intros s Hs. discriminate Hs.
  - exists [], []. cbn [state_of]. rewrite mounted_nil.
    split; [reflexivity|]. split; [reflexivity|]. intros s Hs. discriminate Hs.
Qed.


(** A refresh whose first read of the disk raises ends there. *)
Lemma refresh_data_first_read_raises (now later : World F) (self : Panel F)
    (e : exception) :
  aggregate_worker_metrics (world_scan now) (world_provider now)
    (ralph_dir self) = Raise e ->
  refresh_data tx now later self = raised self e.
Proof.
  intros Hm. unfold refresh_data, _load_metrics. now rewrite Hm.
Qed.

(** What a refresh does when its first read of the disk returns [m]. *)
Lemma refresh_data_run (now later : World F) (self : Panel F)
    (m : AggregateMetrics F) :
  aggregate_worker_metrics (world_scan now) (world_provider now)
    (ralph_dir self) = Return m ->
  refresh_data tx now later self =
  if (_compute_data_hash m =? _last_data_hash self)%string
  then returned (with_metrics m self)
  else
    match aggregate_worker_metrics (world_scan later) (world_provider later)
            (ralph_dir self) with
    | Raise e =>
        raised (show remove_children
                  (with_hash (_compute_data_hash m) (with_metrics m self))) e
    | Return m' =>
        mount_each tx (compose_script m') []
          (with_metrics m'
             (show remove_children
                (with_hash (_compute_data_hash m) (with_metrics m self))))
    end.
Proof.
  intros Hm. unfold refresh_data, compose, _load_metrics. rewrite Hm.
  cbn [bind metrics with_metrics _last_data_hash].
  destruct (_compute_data_hash m =? _last_data_hash self)%string;
    [reflexivity|].
  cbn [ralph_dir show with_hash with_metrics].
  destruct (aggregate_worker_metrics (world_scan later) (world_provider later)
              (ralph_dir self)) as [m'|e]; reflexivity.
Qed.

(** The state a refresh leaves when its first read returns [m]. *)
Lemma refresh_data_state (now later : World F) (self : Panel F)
    (m : AggregateMetrics F) :
  aggregate_worker_metrics (world_scan now) (world_provider now)
    (ralph_dir self) = Return m ->
  (_compute_data_hash m = _last_data_hash self ->
   refresh_data tx now later self = returned (with_metrics m self))
  /\ (_compute_data_hash m <> _last_data_hash self ->
      exists (m' : AggregateMetrics F) (shown : list Widget),
        state_of (refresh_data tx now later self)
        = {| ralph_dir := ralph_dir self; metrics := m';
             _last_data_hash := _compute_data_hash m;
             screen := screen self
                       ++ remove_children :: map mount shown |}).
Proof.
  intros Hm. rewrite (refresh_data_run now later self m Hm). split.
  - intros ->. now rewrite String.eqb_refl.
  - intros Hne. apply String.eqb_neq in Hne. rewrite Hne.
    destruct (aggregate_worker_metrics (world_scan later) (world_provider later)
                (ralph_dir self)) as [m'|e].
    + destruct (mount_each_mounts (compose_script m') []
                  (with_metrics m'
                     (show remove_children
                        (with_hash (_compute_data_hash m)
                           (with_metrics m self)))))
        as (shown & rest & _ & -> & _).
      exists m', shown. unfold mounted, with_metrics, show, with_hash. cbn.
      now rewrite <- List.app_assoc.
    + exists m, []. reflexivity.
Qed.

Lemma screen_grows (l : list ui_effect) (fx : ui_effect)
    (more : list ui_effect) :
  l ++ fx :: more <> l.
Proof.
  intros Heq. apply (f_equal (@List.length _)) in Heq.
  rewrite length_app in Heq. cbn in Heq. lia.
Qed.
End Refresh.




(** X9. After a refresh whose first read of the disk returned a snapshot, the
    panel holds the fingerprint of that snapshot and the root directory it
    had, whether the refresh returned or an exception ended its
    re-rendering. A further refresh that reads a snapshot with the same
    fingerprint returns at once: it stores the snapshot and leaves the
    fingerprint and the screen as they are, so that what an interrupted
    re-rendering left on the screen stays until the fingerprint changes. *)
Theorem refresh_settles :
  forall (F : Type) (float : PyFloat F) (display : PyFloatDisplay F)
         (tx : Textual) (now later : World F) (self : Panel F)
         (m : AggregateMetrics F),
    aggregate_worker_metrics (world_scan now) (world_provider now)
      (ralph_dir self) = Return m ->
    ralph_dir (state_of (refresh_data tx now later self)) = ralph_dir self
    /\ _last_data_hash (state_of (refresh_data tx now later self))
       = _compute_data_hash m
    /\ (forall (tx' : Textual) (now' later' : World F)
               (m1 : AggregateMetrics F),
          aggregate_worker_metrics (world_scan now') (world_provider now')
            (ralph_dir self) = Return m1 ->
          _compute_data_hash m1 = _compute_data_hash m ->
          refresh_data tx' now' later'
            (state_of (refresh_data tx now later self))
          = returned
              (with_metrics m1 (state_of (refresh_data tx now later self)))).
Proof.
  intros F float display tx now later self m Hm.
  destruct (refresh_data_state tx now later self m Hm) as [Hsame Hnew].
  assert (Hstate : ralph_dir (state_of (refresh_data tx now later self))
                   = ralph_dir self
                   /\ _last_data_hash (state_of (refresh_data tx now later self))
                      = _compute_data_hash m).
  { destruct (String.eqb_spec (_compute_data_hash m) (_last_data_hash self))
      as [Heq|Hne].
    - rewrite (Hsame Heq). cbn. auto.
    - destruct (Hnew Hne) as (m' & shown & ->). cbn. auto. }
  destruct Hstate as [Hdir Hhash].
  split; [exact Hdir|]. split; [exact Hhash|].
  intros tx' now' later' m1 Hm1 Hh.
  rewrite <- Hdir in Hm1.
  apply (proj1 (refresh_data_state tx' now' later' _ m1 Hm1)).
  now rewrite Hhash.
Qed.

Lemma refresh_settles_witness :
  refresh_data direct_iteration fleet_disk fleet_disk
    (state_of
       (refresh_data direct_iteration fleet_disk fleet_disk
          (init "/tmp/.ralph")))
  = returned
      {| ralph_dir := "/tmp/.ralph"; metrics := fleet_metrics;
         _last_data_hash := "(3, 1, 1, 9.0, 14, 15)";
         screen := [remove_children;
                    mount (Static "SUMMARY" "section-title")] |}.
Proof.
  destruct (refresh_settles Z whole_float whole_display direct_iteration
              fleet_disk fleet_disk (init "/tmp/.ralph") fleet_metrics eq_refl)
    as (_ & _ & Hagain).
  rewrite (Hagain direct_iteration fleet_disk fleet_disk fleet_metrics
             eq_refl eq_refl).
  reflexivity.
Defined.

(** X10. A refresh raises and leaves the panel untouched exactly when the
    provider raises at its first read of the disk, and what it raises is
    what the provider raised for the first worker, in the order of the scan,
    for which it did. When the first read returns a snapshot with a new
    fingerprint and the provider raises at the second read, the one
    [compose] starts with, the refresh raises that with the new
    fingerprint stored and the children removed. *)
Theorem refresh_raises_first_failure :
  forall (F : Type) (float : PyFloat F) (display : PyFloatDisplay F)
         (tx : Textual) (now later : World F) (self : Panel F)
         (e : exception),
    (refresh_data tx now later self = raised self e
     <-> first_failure now (ralph_dir self) e)
    /\ (forall m : AggregateMetrics F,
          aggregate_worker_metrics (world_scan now) (world_provider now)
            (ralph_dir self) = Return m ->
          _compute_data_hash m <> _last_data_hash self ->
          first_failure later (ralph_dir self) e ->
          refresh_data tx now later self
          = raised {| ralph_dir := ralph_dir self; metrics := m;
                      _last_data_hash := _compute_data_hash m;
                      screen := screen self ++ [remove_children] |} e).
Proof.
  intros F float display tx now later self e.
  assert (Hfirst : forall w : World F,
            first_failure w (ralph_dir self) e
            <-> aggregate_worker_metrics (world_scan w) (world_provider w)
                  (ralph_dir self) = Raise e).
  { intros w. unfold first_failure.
    rewrite <- (AggregatorMore.for_workers_first_failure (world_provider w)
                  (ralph_dir self) (world_scan w (ralph_dir self))
                  (set_total_workers
                     (Z.of_nat (List.length (world_scan w (ralph_dir self))))
                     empty_metrics) e).
    unfold aggregate_worker_metrics.
    destruct (for_workers (world_provider w) _ _ _) as [m0|e0]; cbn [bind].
    - split; discriminate.
    - reflexivity. }
  split.
  - rewrite Hfirst.
    destruct (aggregate_worker_metrics (world_scan now) (world_provider now)
                (ralph_dir self)) as [m|e'] eqn:Hm.
    + split; [|discriminate]. intros Hr. exfalso.
      destruct (refresh_data_state tx now later self m Hm) as [Hsame Hnew].
      destruct (String.eqb_spec (_compute_data_hash m) (_last_data_hash self))
        as [Heq|Hne].
      * rewrite (Hsame Heq) in Hr. discriminate Hr.
      * destruct (Hnew Hne) as (m' & shown & Hstate).
        rewrite Hr in Hstate. cbn [state_of] in Hstate.
        apply (f_equal screen) in Hstate. cbn [screen] in Hstate.
        symmetry in Hstate. now apply screen_grows in Hstate.
    + rewrite (refresh_data_first_read_raises tx now later self e' Hm).
      split; intros [= ->]; reflexivity.
  - intros m Hm Hne Hlater. apply Hfirst in Hlater.
    rewrite (refresh_data_run tx now later self m Hm), Hlater.
    apply String.eqb_neq in Hne. rewrite Hne. reflexivity.
Qed.

Lemma refresh_raises_first_failure_witness :
  refresh_data direct_iteration unreadable_disk fleet_disk (init "/tmp/.ralph")
  = raised (init "/tmp/.ralph") PermissionError
  /\ refresh_data direct_iteration fleet_disk unreadable_disk
       (init "/tmp/.ralph")
     = raised {| ralph_dir := "/tmp/.ralph"; metrics := fleet_metrics;
                 _last_data_hash := "(3, 1, 1, 9.0, 14, 15)";
                 screen := [remove_children] |} PermissionError.
Proof.
  assert (Hfail : first_failure unreadable_disk "/tmp/.ralph" PermissionError).
  { exists [nth 0 fleet (worker_of "" "" 0 STOPPED)],
           (nth 1 fleet (worker_of "" "" 0 STOPPED)),
           [nth 2 fleet (worker_of "" "" 0 STOPPED)].
    split; [reflexivity|]. split; [|reflexivity].
    intros v [<-|[]]. eexists. vm_compute. reflexivity. }
  split.
  - apply (proj1 (refresh_raises_first_failure Z whole_float whole_display
                    direct_iteration unreadable_disk fleet_disk
                    (init "/tmp/.ralph") PermissionError)).
    exact Hfail.
  - apply (proj2 (refresh_raises_first_failure Z whole_float whole_display
                    direct_iteration fleet_disk unreadable_disk
                    (init "/tmp/.ralph") PermissionError) fleet_metrics).
    + reflexivity.
    + discriminate.
    + exact Hfail.
Defined.



End MetricsPanelWidgetFacts.
